(** * nestjs-mongoose-generic: the populate normalizer and the GenericDatabase wrapper

    A shallow embedding of [generic-helper.js] and [generic-database.ts].
    JavaScript values are an inductive type; the asynchronous methods of
    [GenericDatabase] are computations in a monad that threads the state
    of the document mapper, the console and the list of calls sent to the
    mapper, and that ends either by returning or by throwing a value. *)

From Stdlib Require Import String Ascii List ZArith Bool Lia DecimalString.
Import ListNotations.
Local Open Scope string_scope.
Local Open Scope list_scope.
Set Warnings "-register-all".

(** ** JavaScript values *)

Module Js.

(** The classes of [Error] instances the program can meet.  Nest's two
    HTTP exceptions extend [Error]; [LibraryError] stands for any other
    subclass (the mapper's CastError, ValidationError, ...). *)
Inductive ErrorClass : Type :=
| PlainError
| TypeError
| NotFoundException
| BadRequestException
| LibraryError (name : string).

(** Numbers are restricted to the integers a double holds exactly
    (magnitude below 2^53): NaN, fractions, BigInts and Symbols are left
    out.  A string is its sequence of code units, each below 256.
    Objects keep their own enumerable properties in insertion order, with
    distinct keys.  An Error instance is its class and its message. *)
Inductive value : Type :=
| VUndefined
| VNull
| VBool (b : bool)
| VNum (n : Z)
| VStr (s : string)
| VObj (props : list (string * value))
| VArr (elems : list value)
| VErr (cls : ErrorClass) (message : string).

(** How a statement block ends: [return a] or [throw e]. *)
Inductive Completion (A : Type) : Type :=
| Returns (a : A)
| Throws (e : value).
Arguments Returns {A} a.
Arguments Throws {A} e.

(** [!!v] *)
Definition truthy (v : value) : bool :=
  match v with
  | VUndefined | VNull => false
  | VBool b => b
  | VNum n => negb (Z.eqb n 0)
  | VStr s => negb (String.eqb s EmptyString)
  | VObj _ | VArr _ | VErr _ _ => true
  end.

(** [typeof v === 'string'] *)
Definition typeof_string (v : value) : bool :=
  match v with
  | VStr _ => true
  | _ => false
  end.

(** [v instanceof Error] *)
Definition instanceof_Error (v : value) : bool :=
  match v with
  | VErr _ _ => true
  | _ => false
  end.

(** [v instanceof NotFoundException] *)
Definition instanceof_NotFoundException (v : value) : bool :=
  match v with
  | VErr NotFoundException _ => true
  | _ => false
  end.

(** [v instanceof BadRequestException] *)
Definition instanceof_BadRequestException (v : value) : bool :=
  match v with
  | VErr BadRequestException _ => true
  | _ => false
  end.

(** [error.message], read only where [error instanceof Error] holds. *)
Definition message (error : value) : string :=
  match error with
  | VErr _ m => m
  | _ => EmptyString
  end.

(** The key under which an array keeps its [i]-th element. *)
Definition index_key (i : nat) : string :=
  NilZero.string_of_uint (Nat.to_uint i).

(** The index a property key denotes, when it is a canonical one. *)
Definition array_index (key : string) : option nat :=
  match NilZero.uint_of_string key with
  | Some u =>
      let i := Nat.of_uint u in
      if String.eqb (index_key i) key then Some i else None
  | None => None
  end.

Fixpoint obj_get (key : string) (props : list (string * value)) : option value :=
  match props with
  | [] => None
  | (k, v) :: rest => if String.eqb k key then Some v else obj_get key rest
  end.

(** [o[key] = v]: an existing key keeps its place, a new one goes last. *)
Fixpoint obj_set (key : string) (v : value) (props : list (string * value))
  : list (string * value) :=
  match props with
  | [] => [(key, v)]
  | (k, v0) :: rest =>
      if String.eqb k key then (k, v) :: rest else (k, v0) :: obj_set key v rest
  end.

Definition obj_has (key : string) (props : list (string * value)) : bool :=
  match obj_get key props with
  | Some _ => true
  | None => false
  end.

(** [key in v].  [None] is the TypeError JavaScript raises when the right
    operand is a primitive.  Properties inherited from the built-in
    prototypes are left out, except an array's [length]: the only key the
    program asks for is ["path"], which no built-in prototype defines. *)
Definition js_in (key : string) (v : value) : option bool :=
  match v with
  | VObj props => Some (obj_has key props)
  | VArr elems =>
      Some (String.eqb key "length" ||
            match array_index key with
            | Some i => Nat.ltb i (length elems)
            | None => false
            end)
  | VErr _ _ => Some (String.eqb key "message" || String.eqb key "stack")
  | VUndefined | VNull | VBool _ | VNum _ | VStr _ => None
  end.

(** [String(v)] for the primitives that can reach the [in] operator. *)
Definition display (v : value) : string :=
  match v with
  | VUndefined => "undefined"
  | VNull => "null"
  | VBool true => "true"
  | VBool false => "false"
  | VNum n => NilZero.string_of_int (Z.to_int n)
  | VStr s => s
  | VObj _ => "[object Object]"
  | VArr _ => "[object Array]"
  | VErr _ m => m
  end.

Fixpoint chars (s : string) : list value :=
  match s with
  | EmptyString => []
  | String c rest => VStr (String c EmptyString) :: chars rest
  end.

Fixpoint indexed (i : nat) (vs : list value) : list (string * value) :=
  match vs with
  | [] => []
  | v :: rest => (index_key i, v) :: indexed (S i) rest
  end.

(** The own enumerable properties [{...v}] copies.  Of an Error instance
    these are none for the built-in errors, whose [message] and [stack]
    are not enumerable; the properties a library's exception class
    assigns in its constructor are not recorded in [VErr]. *)
Definition spread (v : value) : list (string * value) :=
  match v with
  | VObj props => props
  | VArr elems => indexed 0 elems
  | VStr s => indexed 0 (chars s)
  | VUndefined | VNull | VBool _ | VNum _ | VErr _ _ => []
  end.

End Js.
Import Js.

(** ** generic-helper.js *)

(** <<
    function normalizePopulate(populate) {
        if (!populate) return undefined;
        if (typeof populate === 'string' || 'path' in populate) return [populate];
        return populate;
    }
    >> *)
Definition normalizePopulate (populate : value) : Completion value :=
  if negb (truthy populate) then Returns VUndefined
  else if typeof_string populate then Returns (VArr [populate])
  else match js_in "path" populate with
       | Some true => Returns (VArr [populate])
       | Some false => Returns populate
       | None =>
           Throws (VErr TypeError
                     ("Cannot use 'in' operator to search for 'path' in "
                        ++ display populate))
       end.

(** ** The document mapper and the effects of a method *)

(** What the wrapper asks of the mapper.  [findOne], [find] and
    [findOneAndUpdate] are queries, run by [exec]; a query built by
    [findOne] or [find] carries the arguments of the [populate] calls made
    on it.  [construct] is [new this.dbModel(dto)] and [save] the [save()]
    of the document it made.  The last four are the mapper's hard
    deletions. *)
Inductive ModelCall : Type :=
| findOne (filter : value) (populated : list value)
| find (filter : value) (populated : list value)
| findOneAndUpdate (filter update options : value)
| construct (dto : value)
| save (doc : value)
| deleteOne (filter : value)
| deleteMany (filter : value)
| findOneAndDelete (filter : value)
| findByIdAndDelete (id : value).

(** [query.populate(arg)] *)
Definition populate (query : ModelCall) (arg : value) : ModelCall :=
  match query with
  | findOne filter populated => findOne filter (populated ++ [arg])
  | find filter populated => find filter (populated ++ [arg])
  | other => other
  end.

(** The injected [dbModel]: its [modelName], and what awaiting a call
    yields (a value, or the thrown or rejected value) together with the
    mapper's next state. *)
Record Model (S : Type) : Type := {
  modelName : string;
  run : ModelCall -> S -> Completion value * S
}.
Arguments modelName {S} _.
Arguments run {S} _ _ _.

Inductive LogLevel : Type := LogError | LogInfo.

(** The state a method runs in: the mapper's state, the console lines
    written so far and the calls sent to the mapper so far, each with what
    awaiting it yielded (both oldest first). *)
Record World (S : Type) : Type := {
  db : S;
  console : list (LogLevel * string * value);
  sent : list (ModelCall * Completion value)
}.
Arguments db {S} _.
Arguments console {S} _.
Arguments sent {S} _.

Definition initial {S : Type} (s : S) : World S :=
  {| db := s; console := []; sent := [] |}.

(** A computation keeps the state it reached when it throws. *)
Definition M (S A : Type) : Type := World S -> Completion A * World S.

Definition ret {S A : Type} (a : A) : M S A := fun w => (Returns a, w).

Definition throw {S A : Type} (e : value) : M S A := fun w => (Throws e, w).

Definition bind {S A B : Type} (m : M S A) (k : A -> M S B) : M S B :=
  fun w =>
    match m w with
    | (Returns a, w') => k a w'
    | (Throws e, w') => (Throws e, w')
    end.

(** [try { body } catch (error) { handler }] *)
Definition try_catch {S A : Type} (body : M S A) (handler : value -> M S A)
  : M S A :=
  fun w =>
    match body w with
    | (Returns a, w') => (Returns a, w')
    | (Throws e, w') => handler e w'
    end.

(** Lifts the completion of a pure helper. *)
Definition lift {S A : Type} (c : Completion A) : M S A := fun w => (c, w).

Declare Scope js_scope.
Delimit Scope js_scope with js.
Notation "x <- m ;; k" := (bind m (fun x => k))
  (at level 61, m at next level, right associativity) : js_scope.
Notation "m ;; k" := (bind m (fun _ => k))
  (at level 61, right associativity) : js_scope.
Local Open Scope js_scope.

Definition console_error {S : Type} (label : string) (v : value) : M S unit :=
  fun w =>
    (Returns tt,
     {| db := db w; console := console w ++ [(LogError, label, v)];
        sent := sent w |}).

Definition console_log {S : Type} (label : string) (v : value) : M S unit :=
  fun w =>
    (Returns tt,
     {| db := db w; console := console w ++ [(LogInfo, label, v)];
        sent := sent w |}).

(** [await query.exec()], and likewise [await doc.save()] and
    [new this.dbModel(dto)]: the call goes to the mapper. *)
Definition exec {S : Type} (dbModel : Model S) (call : ModelCall) : M S value :=
  fun w =>
    let (outcome, s') := run dbModel call (db w) in
    (outcome,
     {| db := s'; console := console w;
        sent := sent w ++ [(call, outcome)] |}).

Definition new_NotFoundException (msg : string) : value :=
  VErr NotFoundException msg.

Definition new_BadRequestException (msg : string) : value :=
  VErr BadRequestException msg.

Definition new_Error (msg : string) : value := VErr PlainError msg.

(** [populateFields && populateFields.length > 0] *)
Definition has_fields (populateFields : option (list string)) : bool :=
  match populateFields with
  | Some fields => Nat.ltb 0 (length fields)
  | None => false
  end.

Definition fields_value (populateFields : option (list string)) : value :=
  match populateFields with
  | Some fields => VArr (map VStr fields)
  | None => VUndefined
  end.

(** ** generic-database.ts *)

Section GenericDatabase.

Context {S : Type}.

(** [this.dbModel], set by the constructor. *)
Variable dbModel : Model S.

Definition genericFindByUsername (username : string)
    (populateFields : option (list string)) : M S value :=
  try_catch
    (let query :=
       findOne (VObj [("username", VStr username); ("isDeleted", VBool false)]) [] in
     let query :=
       if has_fields populateFields
       then populate query (fields_value populateFields) else query in
     response <- exec dbModel query ;;
     if negb (truthy response)
     then throw (new_NotFoundException
                   ("Document with username " ++ username ++ " not found"))
     else ret response)
    (fun error =>
       if instanceof_Error error
       then console_error "Error finding document by username:" error ;;
            throw (new_NotFoundException
                     ("Error finding document by username: " ++ message error))
       else console_error "Unknown error finding document by username:" error ;;
            throw error).

Definition genericFindAll : M S value :=
  try_catch
    (response <- exec dbModel (find (VObj [("isDeleted", VBool false)]) []) ;;
     if negb (truthy response)
     then throw (new_NotFoundException
                   ("No " ++ modelName dbModel ++ " documents found"))
     else ret response)
    (fun error =>
       if instanceof_Error error
       then console_log "Error finding all documents:" error ;;
            throw (new_NotFoundException
                     ("Error finding all documents: " ++ message error))
       else console_log "Unknown error finding all documents:" error ;;
            throw error).

Definition genericFindOneByIdOrNotFound (id : string)
    (populateFields : option (list string)) : M S value :=
  try_catch
    (let query :=
       findOne (VObj [("_id", VStr id); ("isDeleted", VBool false)]) [] in
     let query :=
       if has_fields populateFields
       then populate query (fields_value populateFields) else query in
     response <- exec dbModel query ;;
     if negb (truthy response)
     then throw (new_NotFoundException
                   (modelName dbModel ++ " Document with id " ++ id ++ " not found"))
     else ret response)
    (fun error =>
       console_error "Error finding document:" error ;;
       if instanceof_NotFoundException error then throw error
       else if instanceof_Error error
       then throw (new_Error ("Error finding document: " ++ message error))
       else console_log "Unknown error finding document by id:" error ;;
            throw error).

Definition genericCreateOne (createDto : value) : M S value :=
  try_catch
    (createdDocument <- exec dbModel (construct createDto) ;;
     response <- exec dbModel (save createdDocument) ;;
     if negb (truthy response)
     then throw (new_BadRequestException
                   ("Failed to create " ++ modelName dbModel ++ " document"))
     else ret response)
    (fun error =>
       console_error "Error creating document:" error ;;
       if instanceof_Error error
       then throw (new_BadRequestException
                     ("Error creating document: " ++ message error))
       else console_log "Unknown error creating document:" error ;;
            throw error).

Definition genericUpdateOne (id : string) (updateDto : value) : M S value :=
  try_catch
    (updatedDocument <-
       exec dbModel
         (findOneAndUpdate
            (VObj [("_id", VStr id); ("isDeleted", VBool false)])
            updateDto
            (VObj [("new", VBool true)])) ;;
     if negb (truthy updatedDocument)
     then throw (new_NotFoundException
                   (modelName dbModel ++ " Document with id " ++ id ++ " not found"))
     else ret updatedDocument)
    (fun error =>
       console_error "Error updating document:" error ;;
       if instanceof_Error error
       then throw (new_BadRequestException
                     ("Error updating document: " ++ message error))
       else console_log "Unknown error updating document:" error ;;
            throw error).

Definition genericDeleteOne (id : string) : M S value :=
  try_catch
    (deletedDocument <-
       exec dbModel
         (findOneAndUpdate
            (VObj [("_id", VStr id); ("isDeleted", VBool false)])
            (VObj [("isDeleted", VBool true)])
            (VObj [("new", VBool true)])) ;;
     if negb (truthy deletedDocument)
     then throw (new_NotFoundException
                   (modelName dbModel ++ " Document with id " ++ id ++ " not found"))
     else ret deletedDocument)
    (fun error =>
       console_error "Error deleting document:" error ;;
       if instanceof_Error error
       then throw (new_BadRequestException
                     ("Error deleting document: " ++ message error))
       else console_log "Unknown error deleting document:" error ;;
            throw error).

Definition genericFindOne (filter : value) : M S value :=
  try_catch
    (response <-
       exec dbModel
         (findOne (VObj (obj_set "isDeleted" (VBool false) (spread filter))) []) ;;
     ret response)
    (fun error =>
       if instanceof_Error error
       then console_log "Error finding document by filter:" error ;;
            throw (new_NotFoundException
                     ("Error finding document by filter: " ++ message error))
       else console_log "Unknown error finding document by filter:" error ;;
            throw error).

Definition genericFindOneWithPopulate (filter populateOptions : value)
  : M S value :=
  try_catch
    (let query :=
       findOne (VObj (obj_set "isDeleted" (VBool false) (spread filter))) [] in
     normalizedPopulate <- lift (normalizePopulate populateOptions) ;;
     let query :=
       if truthy normalizedPopulate
       then populate query normalizedPopulate else query in
     exec dbModel query)
    (fun error =>
       if instanceof_Error error
       then console_error "Error finding and populating document:" error ;;
            throw (new_NotFoundException
                     ("Error finding and populating document: " ++ message error))
       else throw error).

Definition genericFindAllWithPopulate (filter populateOptions : value)
  : M S value :=
  try_catch
    (let query :=
       find (VObj (obj_set "isDeleted" (VBool false) (spread filter))) [] in
     normalizedPopulate <- lift (normalizePopulate populateOptions) ;;
     let query :=
       if truthy normalizedPopulate
       then populate query normalizedPopulate else query in
     exec dbModel query)
    (fun error =>
       if instanceof_Error error
       then console_error "Error finding and populating documents:" error ;;
            throw (new_NotFoundException
                     ("Error finding and populating documents: " ++ message error))
       else throw error).

Definition genericFindOneOrNotFound (filter : value) : M S value :=
  try_catch
    (response <-
       exec dbModel
         (findOne (VObj (obj_set "isDeleted" (VBool false) (spread filter))) []) ;;
     if negb (truthy response)
     then throw (new_NotFoundException
                   (modelName dbModel ++ " Document not found with provided filter"))
     else ret response)
    (fun error =>
       if instanceof_Error error
       then console_log "Error finding document by filter:" error ;;
            throw (new_NotFoundException
                     ("Error finding document by filter: " ++ message error))
       else console_log "Unknown error finding document by filter:" error ;;
            throw error).

End GenericDatabase.

(** A call of one of the ten public methods, with its arguments (an
    omitted optional argument is [None] or [VUndefined]). *)
Inductive Method : Type :=
| GenericFindByUsername (username : string) (populateFields : option (list string))
| GenericFindAll
| GenericFindOneByIdOrNotFound (id : string) (populateFields : option (list string))
| GenericCreateOne (createDto : value)
| GenericUpdateOne (id : string) (updateDto : value)
| GenericDeleteOne (id : string)
| GenericFindOne (filter : value)
| GenericFindOneWithPopulate (filter populateOptions : value)
| GenericFindAllWithPopulate (filter populateOptions : value)
| GenericFindOneOrNotFound (filter : value).

Definition invoke {S : Type} (dbModel : Model S) (m : Method) : M S value :=
  match m with
  | GenericFindByUsername username populateFields =>
      genericFindByUsername dbModel username populateFields
  | GenericFindAll => genericFindAll dbModel
  | GenericFindOneByIdOrNotFound id populateFields =>
      genericFindOneByIdOrNotFound dbModel id populateFields
  | GenericCreateOne createDto => genericCreateOne dbModel createDto
  | GenericUpdateOne id updateDto => genericUpdateOne dbModel id updateDto
  | GenericDeleteOne id => genericDeleteOne dbModel id
  | GenericFindOne filter => genericFindOne dbModel filter
  | GenericFindOneWithPopulate filter populateOptions =>
      genericFindOneWithPopulate dbModel filter populateOptions
  | GenericFindAllWithPopulate filter populateOptions =>
      genericFindAllWithPopulate dbModel filter populateOptions
  | GenericFindOneOrNotFound filter => genericFindOneOrNotFound dbModel filter
  end.

(** ** What a run shows of a method *)

(** The filter a query carries. *)
Definition call_filter (call : ModelCall) : option value :=
  match call with
  | findOne filter _ | find filter _ | findOneAndUpdate filter _ _
  | deleteOne filter | deleteMany filter | findOneAndDelete filter => Some filter
  | construct _ | save _ | findByIdAndDelete _ => None
  end.

(** The call is a query whose filter has the condition [isDeleted: false]. *)
Definition excludes_deleted (call : ModelCall) : bool :=
  match call_filter call with
  | Some (VObj props) =>
      match obj_get "isDeleted" props with
      | Some (VBool false) => true
      | _ => false
      end
  | _ => false
  end.

(** The call removes documents from the collection. *)
Definition hard_delete (call : ModelCall) : bool :=
  match call with
  | deleteOne _ | deleteMany _ | findOneAndDelete _ | findByIdAndDelete _ => true
  | findOne _ _ | find _ _ | findOneAndUpdate _ _ _ | construct _ | save _ => false
  end.

(** The calls sent to the mapper, oldest first. *)
Definition calls_sent {S : Type} (w : World S) : list ModelCall :=
  map fst (sent w).

(** What awaiting the latest call to the mapper yielded. *)
Definition last_reply {S : Type} (w : World S) : option (Completion value) :=
  match rev (sent w) with
  | (_, reply) :: _ => Some reply
  | [] => None
  end.

(** The methods that read, update or delete: all but [genericCreateOne]. *)
Definition reads_updates_or_deletes (m : Method) : bool :=
  match m with
  | GenericCreateOne _ => false
  | _ => true
  end.

(** The methods whose try block tests the awaited result and throws on a
    falsy one. *)
Definition checks_result (m : Method) : bool :=
  match m with
  | GenericFindOne _
  | GenericFindOneWithPopulate _ _
  | GenericFindAllWithPopulate _ _ => false
  | _ => true
  end.

(** One of the two HTTP exceptions. *)
Definition http_exception (v : value) : bool :=
  instanceof_NotFoundException v || instanceof_BadRequestException v.

(** ** Mappers to run the wrapper against *)

(** A mapper that rejects every call with the same value. *)
Definition rejecting (name : string) (e : value) : Model unit :=
  {| modelName := name; run := fun _ s => (Throws e, s) |}.

(** An in-memory collection with equality filters, enough of the
    mapper's behaviour to run the wrapper on stored documents.  Documents
    hold no references, so populating leaves them as they are. *)
Module MemoryMapper.

Definition Doc : Type := list (string * value).
Definition Store : Type := list Doc.

Definition class_eqb (a b : ErrorClass) : bool :=
  match a, b with
  | PlainError, PlainError
  | TypeError, TypeError
  | NotFoundException, NotFoundException
  | BadRequestException, BadRequestException => true
  | LibraryError x, LibraryError y => String.eqb x y
  | _, _ => false
  end.

Fixpoint value_eqb (a b : value) {struct a} : bool :=
  match a, b with
  | VUndefined, VUndefined | VNull, VNull => true
  | VBool x, VBool y => Bool.eqb x y
  | VNum x, VNum y => Z.eqb x y
  | VStr x, VStr y => String.eqb x y
  | VObj ps, VObj qs =>
      (fix props_eqb (ps qs : list (string * value)) {struct ps} : bool :=
         match ps, qs with
         | [], [] => true
         | (k, v) :: ps', (k', v') :: qs' =>
             String.eqb k k' && value_eqb v v' && props_eqb ps' qs'
         | _, _ => false
         end) ps qs
  | VArr xs, VArr ys =>
      (fix elems_eqb (xs ys : list value) {struct xs} : bool :=
         match xs, ys with
         | [], [] => true
         | x :: xs', y :: ys' => value_eqb x y && elems_eqb xs' ys'
         | _, _ => false
         end) xs ys
  | VErr c m, VErr c' m' => class_eqb c c' && String.eqb m m'
  | _, _ => false
  end.

(** Every condition of the filter is a field of the document with an
    equal value. *)
Definition matches (filter : value) (doc : Doc) : bool :=
  forallb
    (fun cond =>
       match obj_get (fst cond) doc with
       | Some v => value_eqb v (snd cond)
       | None => false
       end)
    (spread filter).

Definition apply_update (update : value) (doc : Doc) : Doc :=
  fold_left (fun d field => obj_set (fst field) (snd field) d) (spread update) doc.

(** Updates the first matching document; gives it before and after. *)
Fixpoint update_first (filter update : value) (store : Store)
  : option (Doc * Doc) * Store :=
  match store with
  | [] => (None, [])
  | doc :: rest =>
      if matches filter doc
      then (Some (doc, apply_update update doc), apply_update update doc :: rest)
      else let (found, rest') := update_first filter update rest in
           (found, doc :: rest')
  end.

Fixpoint remove_first (filter : value) (store : Store) : option Doc * Store :=
  match store with
  | [] => (None, [])
  | doc :: rest =>
      if matches filter doc then (Some doc, rest)
      else let (found, rest') := remove_first filter rest in
           (found, doc :: rest')
  end.

Definition doc_or_null (found : option Doc) : value :=
  match found with
  | Some doc => VObj doc
  | None => VNull
  end.

Definition returns_new (options : value) : bool :=
  match obj_get "new" (spread options) with
  | Some v => truthy v
  | None => false
  end.

Definition same_id (doc other : Doc) : bool :=
  match obj_get "_id" doc, obj_get "_id" other with
  | Some a, Some b => value_eqb a b
  | _, _ => false
  end.

Definition run_call (call : ModelCall) (store : Store)
  : Completion value * Store :=
  match call with
  | findOne filter _ =>
      (Returns (doc_or_null (List.find (matches filter) store)), store)
  | find filter _ =>
      (Returns (VArr (map VObj (List.filter (matches filter) store))), store)
  | findOneAndUpdate filter update options =>
      match update_first filter update store with
      | (Some (before, after), store') =>
          (Returns (VObj (if returns_new options then after else before)), store')
      | (None, store') => (Returns VNull, store')
      end
  | construct dto => (Returns (VObj (spread dto)), store)
  | save doc =>
      if existsb (same_id (spread doc)) store
      then (Throws (VErr (LibraryError "MongoServerError")
                      "E11000 duplicate key error"), store)
      else (Returns doc, store ++ [spread doc])
  | deleteOne filter =>
      let (found, store') := remove_first filter store in
      (Returns (VObj [("deletedCount", VNum (match found with Some _ => 1 | None => 0 end))]), store')
  | deleteMany filter =>
      let kept := List.filter (fun doc => negb (matches filter doc)) store in
      (Returns (VObj [("deletedCount",
                       VNum (Z.of_nat (length store - length kept)))]), kept)
  | findOneAndDelete filter =>
      let (found, store') := remove_first filter store in
      (Returns (doc_or_null found), store')
  | findByIdAndDelete id =>
      let (found, store') := remove_first (VObj [("_id", id)]) store in
      (Returns (doc_or_null found), store')
  end.

Definition model (name : string) : Model Store :=
  {| modelName := name; run := run_call |}.

(** The document is stored and not flagged as deleted. *)
Definition live (doc : Doc) : bool :=
  match obj_get "isDeleted" doc with
  | Some (VBool false) => true
  | _ => false
  end.

Definition has_id (id : string) (doc : Doc) : bool :=
  match obj_get "_id" doc with
  | Some (VStr i) => String.eqb i id
  | _ => false
  end.

(** Two users, the second one soft-deleted. *)
Definition users : Store :=
  [ [("_id", VStr "u1"); ("username", VStr "ada"); ("isDeleted", VBool false)];
    [("_id", VStr "u2"); ("username", VStr "bob"); ("isDeleted", VBool true)] ].

End MemoryMapper.

(** ** The service of the README *)

(** The methods that only read and answer a failed read with a
    NotFoundException: the reads other than the lookup by id. *)
Definition plain_read (m : Method) : bool :=
  match m with
  | GenericFindByUsername _ _
  | GenericFindAll
  | GenericFindOne _
  | GenericFindOneWithPopulate _ _
  | GenericFindAllWithPopulate _ _
  | GenericFindOneOrNotFound _ => true
  | GenericFindOneByIdOrNotFound _ _
  | GenericCreateOne _
  | GenericUpdateOne _ _
  | GenericDeleteOne _ => false
  end.

(** [o.key] on an object: a missing property reads as [undefined]. *)
Definition prop (key : string) (props : list (string * value)) : value :=
  match obj_get key props with
  | Some v => v
  | None => VUndefined
  end.

(** [a ?? b] *)
Definition nullish (a b : value) : value :=
  match a with
  | VUndefined | VNull => b
  | _ => a
  end.

(** [UsersService], the class of the README that extends
    [GenericDatabase].  The DTO of [create] is an object, given by its
    properties.  What the README imports is taken as given: the outcome of
    [bcrypt.hash], the [Date] that [new Date()] makes and the constant
    [UserModelConstants.privilegeId]. *)
Module UsersService.
Section Service.

Context {S : Type}.
Variable userModel : Model S.
Variable bcrypt_hash : value -> Z -> Completion value.
Variable new_Date : value.
Variable privilegeId : string.

Definition create (createUserDto : list (string * value)) : M S value :=
  hashedPassword <- lift (bcrypt_hash (prop "password" createUserDto) 10) ;;
  let createdUser :=
    VObj
      (obj_set "isActive" (nullish (prop "isActive" createUserDto) (VBool true))
         (obj_set "isDeleted" (VBool false)
            (obj_set "dateOfJoined"
               (nullish (prop "dateOfJoined" createUserDto) new_Date)
               (obj_set "password" hashedPassword createUserDto)))) in
  genericCreateOne userModel createdUser.

Definition updateSingleUser (id : string) (userDTO : value) : M S value :=
  genericFindOneByIdOrNotFound userModel id None ;;
  genericUpdateOne userModel id userDTO.

Definition deleteSingleUser (id : string) : M S value :=
  genericFindOneByIdOrNotFound userModel id None ;;
  genericDeleteOne userModel id.

Definition findOneUser (id : string) : M S value :=
  genericFindOneWithPopulate userModel
    (VObj [("_id", VStr id)])
    (VObj [("path", VStr privilegeId)]).

End Service.
End UsersService.

(** * Properties *)

(** ** The populate normalizer *)

Section NormalizePopulate.

Lemma js_in_truthy (key : string) (v : value) (b : bool) :
  js_in key v = Some b -> truthy v = true /\ typeof_string v = false.
Proof.
  destruct v; simpl; intros H; try discriminate; split; reflexivity.
Qed.

Lemma array_has_no_path (elems : list value) :
  js_in "path" (VArr elems) = Some false.
Proof. reflexivity. Qed.

Lemma normalizePopulate_absent :
  normalizePopulate VUndefined = Returns VUndefined
  /\ normalizePopulate VNull = Returns VUndefined.
Proof. split; reflexivity. Qed.

Lemma nonempty_string_truthy (s : string) :
  s <> EmptyString -> truthy (VStr s) = true.
Proof.
  intros Hs. simpl. destruct (String.eqb_spec s EmptyString) as [E | _].
  - contradiction.
  - reflexivity.
Qed.

(** C7, as the code has it: a non-empty string is wrapped in a
    single-element array. *)
Theorem normalizePopulate_nonempty_string (s : string) :
  s <> EmptyString ->
  normalizePopulate (VStr s) = Returns (VArr [VStr s]).
Proof.
  intros Hs. unfold normalizePopulate.
  rewrite (nonempty_string_truthy s Hs). reflexivity.
Qed.

Lemma normalizePopulate_nonempty_string_witness :
  "user" <> EmptyString
  /\ normalizePopulate (VStr "user") = Returns (VArr [VStr "user"]).
Proof.
  split.
  - discriminate.
  - apply (normalizePopulate_nonempty_string "user"). discriminate.
Defined.

(** C7 as stated fails at the empty string: it is falsy, so the first
    guard answers [undefined] before the string test is reached. *)
Lemma normalizePopulate_empty_string :
  normalizePopulate (VStr EmptyString) = Returns VUndefined
  /\ normalizePopulate (VStr EmptyString) <> Returns (VArr [VStr EmptyString]).
Proof. split; [reflexivity | discriminate]. Qed.

(** C8: an object (anything the [in] operator accepts) that carries a
    ["path"] key is wrapped in a single-element array. *)
Theorem normalizePopulate_path_object (o : value) :
  js_in "path" o = Some true ->
  normalizePopulate o = Returns (VArr [o]).
Proof.
  intros Hin. destruct (js_in_truthy _ _ _ Hin) as [Ht Hs].
  unfold normalizePopulate. rewrite Ht, Hs, Hin. reflexivity.
Qed.

Lemma normalizePopulate_path_object_witness :
  js_in "path" (VObj [("path", VStr "user"); ("select", VStr "name email")])
  = Some true
  /\ normalizePopulate
       (VObj [("path", VStr "user"); ("select", VStr "name email")])
     = Returns
         (VArr [VObj [("path", VStr "user"); ("select", VStr "name email")]]).
Proof.
  split.
  - reflexivity.
  - apply normalizePopulate_path_object. reflexivity.
Defined.

(** C9: an array comes back as it is, whatever its elements. *)
Theorem normalizePopulate_array (a : list value) :
  normalizePopulate (VArr a) = Returns (VArr a).
Proof.
  unfold normalizePopulate. simpl truthy. simpl typeof_string.
  cbv iota. simpl negb. cbv iota.
  rewrite array_has_no_path. reflexivity.
Qed.

(** An object without a ["path"] key takes the same branch as an array. *)
Lemma normalizePopulate_other_object (props : list (string * value)) :
  obj_has "path" props = false ->
  normalizePopulate (VObj props) = Returns (VObj props).
Proof.
  intros H. unfold normalizePopulate. simpl. rewrite H. reflexivity.
Qed.

(** The normalizer throws only the TypeError of the [in] operator. *)
Lemma normalizePopulate_throws_Error (p e : value) :
  normalizePopulate p = Throws e -> instanceof_Error e = true.
Proof.
  unfold normalizePopulate.
  destruct (negb (truthy p)); [discriminate |].
  destruct (typeof_string p); [discriminate |].
  destruct (js_in "path" p) as [[|]|]; try discriminate.
  intros H. inversion H. reflexivity.
Qed.

End NormalizePopulate.

(** ** Running a method *)

(** Unfolds a method down to the mapper's replies and the tests made on
    them, and splits on each. *)
Ltac unfold_method :=
  unfold invoke, genericFindByUsername, genericFindAll,
    genericFindOneByIdOrNotFound, genericCreateOne, genericUpdateOne,
    genericDeleteOne, genericFindOne, genericFindOneWithPopulate,
    genericFindAllWithPopulate, genericFindOneOrNotFound,
    try_catch, bind, ret, throw, lift, exec, console_error, console_log,
    initial;
  cbn [db console sent].

Ltac split_run :=
  repeat match goal with
    | |- context [run ?d ?c ?s] =>
        let reply := fresh "reply" in
        let s' := fresh "s'" in
        let E := fresh "Erun" in
        destruct (run d c s) as [reply s'] eqn:E; destruct reply;
        cbn [db console sent]
    | |- context [normalizePopulate ?p] =>
        let E := fresh "Enorm" in
        destruct (normalizePopulate p) eqn:E; cbn [db console sent]
    | |- context [if ?b then _ else _] =>
        let E := fresh "Etest" in
        destruct b eqn:E; cbn [db console sent]
    end.

Ltac read_last_reply H :=
  unfold last_reply in H; cbn in H; try discriminate H;
  try (inversion H; subst; clear H).

Section ErrorTranslation.

Context {S : Type}.
Variable dbModel : Model S.

(** *** Failures that are not Errors *)

(** C6: when the latest call to the mapper fails with a value that is
    not an instance of Error, the method throws that very value. *)
Theorem non_Error_failure_rethrown (s : S) (m : Method)
    (r : Completion value) (w' : World S) (e : value) :
  invoke dbModel m (initial s) = (r, w') ->
  last_reply w' = Some (Throws e) ->
  instanceof_Error e = false ->
  r = Throws e.
Proof.
  intros Hrun Hlast Hne. revert Hrun.
  destruct m; unfold_method; split_run; intros Hrun; inversion Hrun; subst;
    read_last_reply Hlast; try reflexivity; simpl in *; congruence.
Qed.

(** *** Null results *)

(** C3, as the code has it: seven methods test the awaited result and
    turn [null] into one of the two HTTP exceptions; [genericFindOne],
    [genericFindOneWithPopulate] and [genericFindAllWithPopulate] hand
    the [null] to the caller. *)
Theorem null_result_translation (s : S) (m : Method)
    (r : Completion value) (w' : World S) :
  invoke dbModel m (initial s) = (r, w') ->
  last_reply w' = Some (Returns VNull) ->
  if checks_result m
  then exists e, r = Throws e /\ http_exception e = true
  else r = Returns VNull.
Proof.
  intros Hrun Hlast. revert Hrun.
  destruct m; unfold_method; split_run; intros Hrun; inversion Hrun; subst;
    read_last_reply Hlast; cbn [checks_result];
    try reflexivity; try discriminate;
    try (eexists; split; reflexivity).
Qed.

(** *** Create *)

(** C5: a save rejected with an Error makes [genericCreateOne] throw a
    BadRequestException that carries the Error's message. *)
Theorem genericCreateOne_rejected_save (s : S) (createDto doc : value)
    (s1 s2 : S) (cls : ErrorClass) (msg : string) :
  run dbModel (construct createDto) s = (Returns doc, s1) ->
  run dbModel (save doc) s1 = (Throws (VErr cls msg), s2) ->
  fst (genericCreateOne dbModel createDto (initial s))
  = Throws (new_BadRequestException ("Error creating document: " ++ msg)).
Proof.
  intros Hnew Hsave. unfold_method.
  rewrite Hnew. cbn [db console sent]. rewrite Hsave. reflexivity.
Qed.

(** The same holds when the constructor is what throws. *)
Lemma genericCreateOne_rejected_construct (s : S) (createDto : value)
    (s1 : S) (cls : ErrorClass) (msg : string) :
  run dbModel (construct createDto) s = (Throws (VErr cls msg), s1) ->
  fst (genericCreateOne dbModel createDto (initial s))
  = Throws (new_BadRequestException ("Error creating document: " ++ msg)).
Proof.
  intros Hnew. unfold_method. rewrite Hnew. reflexivity.
Qed.

(** *** Lookup by id *)

(** C4: when the query the method sends, the lookup of the non-deleted
    document with the id, yields [null], the method throws the
    NotFoundException made in the try block; the handler logged that
    exception and threw it again as it was. *)
Theorem genericFindOneByIdOrNotFound_missing (s : S) (id : string)
    (populateFields : option (list string)) :
  fst (run dbModel
         (findOne (VObj [("_id", VStr id); ("isDeleted", VBool false)])
            (if has_fields populateFields
             then [fields_value populateFields] else []))
         s)
  = Returns VNull ->
  calls_sent (snd (genericFindOneByIdOrNotFound dbModel id populateFields
                     (initial s)))
  = [findOne (VObj [("_id", VStr id); ("isDeleted", VBool false)])
       (if has_fields populateFields then [fields_value populateFields] else [])]
  /\ fst (genericFindOneByIdOrNotFound dbModel id populateFields (initial s))
     = Throws (new_NotFoundException
                 (modelName dbModel ++ " Document with id " ++ id ++ " not found"))
  /\ console (snd (genericFindOneByIdOrNotFound dbModel id populateFields
                     (initial s)))
     = [(LogError, "Error finding document:",
         new_NotFoundException
           (modelName dbModel ++ " Document with id " ++ id ++ " not found"))].
Proof.
  unfold_method.
  destruct (has_fields populateFields); cbn [populate app]; intros Hnone;
    destruct (run dbModel _ s) as [reply s']; simpl in Hnone; subst reply;
    repeat split; reflexivity.
Qed.

(** Any other Error met by the lookup is rewrapped, as a plain Error. *)
Lemma genericFindOneByIdOrNotFound_other_Error (s : S) (id : string)
    (r : Completion value) (w' : World S) (cls : ErrorClass) (msg : string) :
  genericFindOneByIdOrNotFound dbModel id None (initial s) = (r, w') ->
  last_reply w' = Some (Throws (VErr cls msg)) ->
  cls <> NotFoundException ->
  r = Throws (new_Error ("Error finding document: " ++ msg)).
Proof.
  intros Hrun Hlast Hcls. revert Hrun.
  unfold_method; split_run; intros Hrun; inversion Hrun; subst;
    read_last_reply Hlast; try reflexivity; try discriminate.
  destruct cls; try discriminate. contradiction.
Qed.

(** *** Update and delete *)

(** What [genericUpdateOne] does when no document matches: the
    NotFoundException of the try block is an Error, so the handler
    replaces it by a BadRequestException. *)
Lemma genericUpdateOne_missing (s s' : S) (id : string) (updateDto : value) :
  run dbModel
    (findOneAndUpdate (VObj [("_id", VStr id); ("isDeleted", VBool false)])
       updateDto (VObj [("new", VBool true)])) s
  = (Returns VNull, s') ->
  fst (genericUpdateOne dbModel id updateDto (initial s))
  = Throws (new_BadRequestException
              ("Error updating document: " ++ modelName dbModel
                 ++ " Document with id " ++ id ++ " not found")).
Proof.
  intros H. unfold_method. rewrite H. reflexivity.
Qed.

Lemma genericDeleteOne_missing (s s' : S) (id : string) :
  run dbModel
    (findOneAndUpdate (VObj [("_id", VStr id); ("isDeleted", VBool false)])
       (VObj [("isDeleted", VBool true)]) (VObj [("new", VBool true)])) s
  = (Returns VNull, s') ->
  fst (genericDeleteOne dbModel id (initial s))
  = Throws (new_BadRequestException
              ("Error deleting document: " ++ modelName dbModel
                 ++ " Document with id " ++ id ++ " not found")).
Proof.
  intros H. unfold_method. rewrite H. reflexivity.
Qed.

End ErrorTranslation.

(** ** The soft-delete convention *)

Section Objects.

Lemma obj_get_set_same (key : string) (v : value) (props : list (string * value)) :
  obj_get key (obj_set key v props) = Some v.
Proof.
  induction props as [| [k v0] rest IH]; simpl.
  - rewrite String.eqb_refl. reflexivity.
  - destruct (String.eqb k key) eqn:E; simpl; rewrite E.
    + reflexivity.
    + exact IH.
Qed.

Lemma obj_get_set_other (key key' : string) (v : value)
    (props : list (string * value)) :
  key' <> key ->
  obj_get key' (obj_set key v props) = obj_get key' props.
Proof.
  intros Hne. induction props as [| [k v0] rest IH]; simpl.
  - destruct (String.eqb_spec key key'); [congruence | reflexivity].
  - destruct (String.eqb_spec k key) as [-> | Hk]; simpl.
    + destruct (String.eqb_spec key key'); [congruence | reflexivity].
    + rewrite IH. reflexivity.
Qed.

Lemma obj_set_In (key : string) (v : value) (props : list (string * value)) :
  In (key, v) (obj_set key v props).
Proof.
  induction props as [| [k v0] rest IH]; simpl.
  - left. reflexivity.
  - destruct (String.eqb_spec k key) as [-> | Hk].
    + left. reflexivity.
    + right. exact IH.
Qed.

(** Setting a key keeps the keys distinct and leaves no other value
    under that key. *)
Lemma obj_set_keys (key : string) (v : value) (props : list (string * value)) :
  NoDup (map fst props) ->
  NoDup (map fst (obj_set key v props))
  /\ (forall k, In k (map fst (obj_set key v props)) -> k = key \/ In k (map fst props)).
Proof.
  induction props as [| [k v0] rest IH]; simpl; intros Hnd.
  - split.
    + constructor; [intros [] | constructor].
    + intros k0 [<- | []]. left. reflexivity.
  - inversion Hnd as [| ? ? Hnotin Hrest]; subst.
    destruct (IH Hrest) as [IHnd IHin].
    destruct (String.eqb_spec k key) as [-> | Hk]; simpl.
    + split; [exact Hnd |]. intros k0 [<- | Hin]; [left | right; right]; auto.
    + split.
      * constructor; [| exact IHnd].
        intros Hin. destruct (IHin _ Hin) as [-> | Hin']; [congruence | auto].
      * intros k0 [<- | Hin]; [right; left; reflexivity |].
        destruct (IHin _ Hin) as [-> | Hin']; [left | right; right]; auto.
Qed.

Lemma obj_get_In (key : string) (v : value) (props : list (string * value)) :
  NoDup (map fst props) -> In (key, v) props -> obj_get key props = Some v.
Proof.
  induction props as [| [k v0] rest IH]; simpl; intros Hnd Hin.
  - contradiction.
  - inversion Hnd as [| ? ? Hnotin Hrest]; subst.
    destruct Hin as [Heq | Hin].
    + inversion Heq; subst. rewrite String.eqb_refl. reflexivity.
    + destruct (String.eqb_spec k key) as [-> | Hk].
      * exfalso. apply Hnotin. apply (in_map fst) in Hin. exact Hin.
      * apply IH; assumption.
Qed.

(** On a filter with distinct keys, the only [isDeleted] condition left
    after [{...filter, isDeleted: false}] is the wrapper's. *)
Lemma spread_isDeleted_only (fprops : list (string * value)) (v : value) :
  NoDup (map fst fprops) ->
  In ("isDeleted", v) (obj_set "isDeleted" (VBool false) (spread (VObj fprops))) ->
  v = VBool false.
Proof.
  intros Hnd Hin. simpl in Hin.
  destruct (obj_set_keys "isDeleted" (VBool false) fprops Hnd) as [Hnd' _].
  pose proof (obj_get_In _ _ _ Hnd' Hin) as Hget.
  rewrite obj_get_set_same in Hget. congruence.
Qed.

Lemma excludes_deleted_spread (filter : value) (populated : list value) :
  excludes_deleted
    (findOne (VObj (obj_set "isDeleted" (VBool false) (spread filter))) populated)
  = true
  /\ excludes_deleted
       (find (VObj (obj_set "isDeleted" (VBool false) (spread filter))) populated)
     = true.
Proof.
  unfold excludes_deleted; simpl. rewrite obj_get_set_same. split; reflexivity.
Qed.

End Objects.

Section SoftDelete.

Context {S : Type}.
Variable dbModel : Model S.

Ltac settle_calls :=
  unfold calls_sent; cbn [sent map fst app populate];
  repeat constructor;
  try apply (proj1 (excludes_deleted_spread _ _));
  try apply (proj2 (excludes_deleted_spread _ _)).

(** C1: no method sends a hard deletion; every reading, updating or
    deleting method sends one query, whose filter has the condition
    [isDeleted: false] (the two populate methods send none when the
    normalizer throws on their option); and [genericDeleteOne] sends one
    [findOneAndUpdate] that sets [isDeleted] to [true]. *)
Theorem soft_delete_convention (s : S) (m : Method) :
  Forall (fun call => hard_delete call = false)
    (calls_sent (snd (invoke dbModel m (initial s))))
  /\ (reads_updates_or_deletes m = true ->
      (exists call,
          calls_sent (snd (invoke dbModel m (initial s))) = [call]
          /\ excludes_deleted call = true)
      \/ (calls_sent (snd (invoke dbModel m (initial s))) = []
          /\ exists filter populateOptions e,
               (m = GenericFindOneWithPopulate filter populateOptions
                \/ m = GenericFindAllWithPopulate filter populateOptions)
               /\ normalizePopulate populateOptions = Throws e))
  /\ (forall id, m = GenericDeleteOne id ->
      calls_sent (snd (invoke dbModel m (initial s)))
      = [findOneAndUpdate
           (VObj [("_id", VStr id); ("isDeleted", VBool false)])
           (VObj [("isDeleted", VBool true)])
           (VObj [("new", VBool true)])]).
Proof.
  split; [| split].
  - destruct m; unfold_method; split_run; settle_calls.
  - intros Hm.
    destruct m; try discriminate Hm; unfold_method; split_run;
      unfold calls_sent; cbn [sent map fst app populate];
      try (left; eexists; split; [reflexivity |];
           first [ reflexivity
                 | apply (proj1 (excludes_deleted_spread _ _))
                 | apply (proj2 (excludes_deleted_spread _ _)) ]);
      right; (split; [reflexivity |]); do 3 eexists; eauto.
  - intros id ->. unfold_method; split_run; reflexivity.
Qed.

(** C10: each of the four by-filter methods sends one query, and the
    four send the same filter: reading [isDeleted] from it gives [false],
    and for a filter object it is the caller's properties with
    [isDeleted] set to [false] over whatever the caller put there.  The
    two populate methods send their query whenever the normalizer
    returns. *)
Theorem caller_cannot_select_deleted (s : S) (filter populateOptions : value) :
  exists props,
    obj_get "isDeleted" props = Some (VBool false)
    /\ (forall fprops,
           filter = VObj fprops ->
           props = obj_set "isDeleted" (VBool false) fprops)
    /\ calls_sent (snd (genericFindOne dbModel filter (initial s)))
       = [findOne (VObj props) []]
    /\ calls_sent (snd (genericFindOneOrNotFound dbModel filter (initial s)))
       = [findOne (VObj props) []]
    /\ (forall normalized,
           normalizePopulate populateOptions = Returns normalized ->
           calls_sent (snd (genericFindOneWithPopulate dbModel filter
                              populateOptions (initial s)))
           = [findOne (VObj props)
                (if truthy normalized then [normalized] else [])]
           /\ calls_sent (snd (genericFindAllWithPopulate dbModel filter
                                 populateOptions (initial s)))
              = [find (VObj props)
                   (if truthy normalized then [normalized] else [])]).
Proof.
  exists (obj_set "isDeleted" (VBool false) (spread filter)).
  split; [apply obj_get_set_same |].
  split; [intros fprops ->; reflexivity |].
  split; [unfold_method; split_run; reflexivity |].
  split; [unfold_method; split_run; reflexivity |].
  intros normalized Hn.
  split; unfold_method; rewrite Hn; split_run; reflexivity.
Qed.

(** A reading, updating or deleting method sends one query, unless the
    normalizer throws before the query is run. *)
Lemma one_query_per_method (s : S) (m : Method) :
  reads_updates_or_deletes m = true ->
  length (calls_sent (snd (invoke dbModel m (initial s)))) = 1
  \/ (calls_sent (snd (invoke dbModel m (initial s))) = []
      /\ exists filter populateOptions e,
           (m = GenericFindOneWithPopulate filter populateOptions
            \/ m = GenericFindAllWithPopulate filter populateOptions)
           /\ normalizePopulate populateOptions = Throws e).
Proof.
  intros Hm.
  destruct m; try discriminate Hm; unfold_method; split_run;
    try (left; reflexivity);
    right; (split; [reflexivity |]); do 3 eexists; eauto.
Qed.

(** The by-filter methods do send their query: always for the two without
    populate, and whenever the normalizer returns for the other two. *)
Lemma by_filter_query_sent (s : S) (filter : value) :
  calls_sent (snd (genericFindOne dbModel filter (initial s)))
  = [findOne (VObj (obj_set "isDeleted" (VBool false) (spread filter))) []]
  /\ calls_sent (snd (genericFindOneOrNotFound dbModel filter (initial s)))
     = [findOne (VObj (obj_set "isDeleted" (VBool false) (spread filter))) []].
Proof.
  split; unfold_method; split_run; reflexivity.
Qed.

Lemma populate_query_sent (s : S) (filter populateOptions normalized : value) :
  normalizePopulate populateOptions = Returns normalized ->
  length (calls_sent (snd (genericFindOneWithPopulate dbModel filter
                             populateOptions (initial s)))) = 1
  /\ length (calls_sent (snd (genericFindAllWithPopulate dbModel filter
                                populateOptions (initial s)))) = 1.
Proof.
  intros Hn. split; unfold_method; rewrite Hn; split_run; reflexivity.
Qed.

End SoftDelete.

(** ** The wrapper over the in-memory collection *)

Module MemoryFacts.
Import MemoryMapper.

Lemma value_eqb_bool (v : value) (b : bool) :
  value_eqb v (VBool b) = true -> v = VBool b.
Proof.
  destruct v; simpl; try discriminate.
  intros H. apply Bool.eqb_prop in H. congruence.
Qed.

Lemma value_eqb_str (v : value) (s : string) :
  value_eqb v (VStr s) = true -> v = VStr s.
Proof.
  destruct v; simpl; try discriminate.
  intros H. apply String.eqb_eq in H. congruence.
Qed.

(** A document that passes a filter has every field the filter asks for. *)
Lemma matches_field (filter : value) (doc : Doc) (key : string) (v : value) :
  matches filter doc = true ->
  In (key, v) (spread filter) ->
  exists d, obj_get key doc = Some d /\ value_eqb d v = true.
Proof.
  unfold matches. intros Hall Hin.
  rewrite forallb_forall in Hall. specialize (Hall _ Hin). simpl in Hall.
  destruct (obj_get key doc) as [d |]; [| discriminate].
  exists d. split; [reflexivity | exact Hall].
Qed.

Lemma matches_live (filter : value) (doc : Doc) :
  matches filter doc = true ->
  In ("isDeleted", VBool false) (spread filter) ->
  live doc = true.
Proof.
  intros Hm Hin. destruct (matches_field _ _ _ _ Hm Hin) as [d [Hget Heq]].
  apply value_eqb_bool in Heq. subst d. unfold live. rewrite Hget. reflexivity.
Qed.

Lemma matches_id (filter : value) (doc : Doc) (id : string) :
  matches filter doc = true ->
  In ("_id", VStr id) (spread filter) ->
  has_id id doc = true.
Proof.
  intros Hm Hin. destruct (matches_field _ _ _ _ Hm Hin) as [d [Hget Heq]].
  apply value_eqb_str in Heq. subst d. unfold has_id. rewrite Hget.
  apply String.eqb_refl.
Qed.

(** Looking up an id under which no live document is stored finds
    nothing. *)
Lemma lookup_absent (store : Store) (id : string) (populated : list value) :
  (forall doc, In doc store -> has_id id doc = true -> live doc = false) ->
  fst (run_call
         (findOne (VObj [("_id", VStr id); ("isDeleted", VBool false)]) populated)
         store)
  = Returns VNull.
Proof.
  intros Habsent. simpl.
  destruct (List.find _ store) as [doc |] eqn:Efind; [| reflexivity].
  apply find_some in Efind. destruct Efind as [Hin Hm].
  assert (Hid : has_id id doc = true)
    by (apply (matches_id _ _ _ Hm); simpl; auto).
  assert (Hlive : live doc = true)
    by (apply (matches_live _ _ Hm); simpl; auto).
  rewrite (Habsent doc Hin Hid) in Hlive. discriminate.
Qed.

(** Over stored documents, the lookup of an id with no live document
    ends with the NotFoundException of the try block. *)
Lemma genericFindOneByIdOrNotFound_absent (name : string) (store : Store)
    (id : string) (populateFields : option (list string)) :
  (forall doc, In doc store -> has_id id doc = true -> live doc = false) ->
  fst (genericFindOneByIdOrNotFound (model name) id populateFields (initial store))
  = Throws (new_NotFoundException
              (name ++ " Document with id " ++ id ++ " not found")).
Proof.
  intros Habsent. unfold_method. cbn [model run modelName].
  destruct (has_fields populateFields); cbn [populate app].
  - pose proof (lookup_absent store id [fields_value populateFields] Habsent) as H.
    destruct (run_call _ store) as [reply s']. simpl in H. subst reply.
    reflexivity.
  - pose proof (lookup_absent store id [] Habsent) as H.
    destruct (run_call _ store) as [reply s']. simpl in H. subst reply.
    reflexivity.
Qed.

(** Over stored documents, whatever the filter says about [isDeleted],
    a document the by-filter methods return is a live one. *)
Lemma by_filter_result_live (name : string) (store : Store)
    (filter populateOptions : value) (doc : Doc) :
  (fst (genericFindOne (model name) filter (initial store)) = Returns (VObj doc)
   \/ fst (genericFindOneOrNotFound (model name) filter (initial store))
      = Returns (VObj doc)
   \/ fst (genericFindOneWithPopulate (model name) filter populateOptions
             (initial store)) = Returns (VObj doc)) ->
  live doc = true.
Proof.
  assert (Hfound : forall populated,
             fst (run_call
                    (findOne (VObj (obj_set "isDeleted" (VBool false) (spread filter)))
                       populated) store) = Returns (VObj doc) ->
             live doc = true).
  { intros populated. simpl.
    destruct (List.find _ store) as [d |] eqn:Efind; simpl; [| discriminate].
    intros H. inversion H; subst d.
    apply find_some in Efind. destruct Efind as [_ Hm].
    apply (matches_live _ _ Hm). simpl. apply obj_set_In. }
  intros [H | [H | H]]; revert H; unfold_method; cbn [model run].
  - intros H. apply (Hfound []).
    destruct (run_call _ store) as [[v | e] s']; simpl in *;
      [exact H | destruct (instanceof_Error e); discriminate].
  - intros H. apply (Hfound []).
    destruct (run_call _ store) as [[v | e] s']; simpl in *.
    + destruct (truthy v); simpl in H; [exact H | discriminate].
    + destruct (instanceof_Error e); discriminate.
  - destruct (normalizePopulate populateOptions) as [np | e] eqn:En.
    + destruct (truthy np); cbn [populate app]; intros H.
      * apply (Hfound [np]).
        destruct (run_call _ store) as [[v | e] s']; simpl in *;
          [exact H | destruct (instanceof_Error e); discriminate].
      * apply (Hfound []).
        destruct (run_call _ store) as [[v | e] s']; simpl in *;
          [exact H | destruct (instanceof_Error e); discriminate].
    + destruct (instanceof_Error e); discriminate.
Qed.

Lemma by_filter_results_live (name : string) (store : Store)
    (filter populateOptions : value) (docs : list value) (doc : Doc) :
  fst (genericFindAllWithPopulate (model name) filter populateOptions
         (initial store)) = Returns (VArr docs) ->
  In (VObj doc) docs ->
  live doc = true.
Proof.
  assert (Hfound : forall populated,
             fst (run_call
                    (find (VObj (obj_set "isDeleted" (VBool false) (spread filter)))
                       populated) store) = Returns (VArr docs) ->
             In (VObj doc) docs -> live doc = true).
  { intros populated. simpl. intros H Hin. inversion H; subst docs.
    apply in_map_iff in Hin. destruct Hin as [d [Hd Hin]].
    inversion Hd; subst d.
    apply filter_In in Hin. destruct Hin as [_ Hm].
    apply (matches_live _ _ Hm). simpl. apply obj_set_In. }
  unfold_method; cbn [model run].
  destruct (normalizePopulate populateOptions) as [np | e] eqn:En.
  - destruct (truthy np); cbn [populate app]; intros H.
    + apply (Hfound [np]).
      destruct (run_call _ store) as [[v | e] s']; simpl in *;
        [exact H | destruct (instanceof_Error e); discriminate].
    + apply (Hfound []).
      destruct (run_call _ store) as [[v | e] s']; simpl in *;
        [exact H | destruct (instanceof_Error e); discriminate].
  - destruct (instanceof_Error e); discriminate.
Qed.

(** Over stored documents, an update keeps every document in its place,
    and the soft delete keeps every id. *)
Lemma update_first_length (filter update : value) (store : Store) :
  length (snd (update_first filter update store)) = length store.
Proof.
  induction store as [| doc rest IH]; simpl.
  - reflexivity.
  - destruct (matches filter doc); simpl.
    + reflexivity.
    + destruct (update_first filter update rest) as [found rest'].
      simpl in *. rewrite IH. reflexivity.
Qed.

Lemma soft_delete_keeps_ids (filter : value) (store : Store) :
  map (obj_get "_id")
    (snd (update_first filter (VObj [("isDeleted", VBool true)]) store))
  = map (obj_get "_id") store.
Proof.
  induction store as [| doc rest IH]; simpl.
  - reflexivity.
  - destruct (matches filter doc); simpl.
    + unfold apply_update. simpl.
      rewrite obj_get_set_other by discriminate. reflexivity.
    + destruct (update_first filter _ rest) as [found rest'].
      simpl in *. rewrite IH. reflexivity.
Qed.

Lemma genericDeleteOne_keeps_documents (name : string) (store : Store)
    (id : string) :
  map (obj_get "_id")
    (db (snd (genericDeleteOne (model name) id (initial store))))
  = map (obj_get "_id") store.
Proof.
  pose proof (soft_delete_keeps_ids
                (VObj [("_id", VStr id); ("isDeleted", VBool false)]) store) as Hids.
  unfold_method; cbn [model run run_call].
  destruct (update_first _ _ store) as [[[before after] |] store'];
    simpl in *; exact Hids.
Qed.

End MemoryFacts.

(** ** The claims on concrete runs *)

Module Runs.
Import MemoryMapper.

(** C2: [genericUpdateOne] and [genericDeleteOne] on the id of a
    soft-deleted user, which the lookup does not match.  Both end with a
    BadRequestException that wraps the message of the NotFoundException
    thrown in the try block. *)
Theorem update_delete_missing_document_bad_request :
  fst (genericUpdateOne (model "User") "u2" (VObj [("username", VStr "eve")])
         (initial users))
  = Throws (VErr BadRequestException
              "Error updating document: User Document with id u2 not found")
  /\ fst (genericDeleteOne (model "User") "u2" (initial users))
     = Throws (VErr BadRequestException
                 "Error deleting document: User Document with id u2 not found")
  /\ last_reply (snd (genericUpdateOne (model "User") "u2"
                        (VObj [("username", VStr "eve")]) (initial users)))
     = Some (Returns VNull)
  /\ last_reply (snd (genericDeleteOne (model "User") "u2" (initial users)))
     = Some (Returns VNull).
Proof. repeat split; reflexivity. Qed.

(** The sibling lookup keeps the NotFoundException on the same id. *)
Example lookup_missing_document_not_found :
  fst (genericFindOneByIdOrNotFound (model "User") "u2" None (initial users))
  = Throws (VErr NotFoundException "User Document with id u2 not found").
Proof. reflexivity. Qed.

(** C3 as stated fails for [genericFindOne]: the query yields [null] and
    the method returns it. *)
Lemma genericFindOne_returns_null :
  last_reply (snd (genericFindOne (model "User") (VObj [("username", VStr "bob")])
                     (initial users)))
  = Some (Returns VNull)
  /\ fst (genericFindOne (model "User") (VObj [("username", VStr "bob")])
            (initial users))
     = Returns VNull.
Proof. split; reflexivity. Qed.

Lemma null_result_translation_witness :
  last_reply
    (snd (invoke (model "User")
            (GenericFindOneOrNotFound (VObj [("username", VStr "bob")]))
            (initial users)))
  = Some (Returns VNull)
  /\ exists e,
       fst (invoke (model "User")
              (GenericFindOneOrNotFound (VObj [("username", VStr "bob")]))
              (initial users))
       = Throws e
       /\ http_exception e = true.
Proof.
  split; [reflexivity |].
  exact (null_result_translation (model "User") users
           (GenericFindOneOrNotFound (VObj [("username", VStr "bob")]))
           (fst (invoke (model "User")
                   (GenericFindOneOrNotFound (VObj [("username", VStr "bob")]))
                   (initial users)))
           (snd (invoke (model "User")
                   (GenericFindOneOrNotFound (VObj [("username", VStr "bob")]))
                   (initial users)))
           eq_refl eq_refl).
Defined.

Lemma genericFindOneByIdOrNotFound_missing_witness :
  fst (run (model "User")
         (findOne (VObj [("_id", VStr "u2"); ("isDeleted", VBool false)])
            (if has_fields (Some ["role"])
             then [fields_value (Some ["role"])] else []))
         users)
  = Returns VNull
  /\ calls_sent (snd (genericFindOneByIdOrNotFound (model "User") "u2"
                        (Some ["role"]) (initial users)))
     = [findOne (VObj [("_id", VStr "u2"); ("isDeleted", VBool false)])
          [VArr [VStr "role"]]]
  /\ fst (genericFindOneByIdOrNotFound (model "User") "u2" (Some ["role"])
            (initial users))
     = Throws (new_NotFoundException "User Document with id u2 not found").
Proof.
  split; [reflexivity |].
  pose proof (genericFindOneByIdOrNotFound_missing (model "User") users "u2"
                (Some ["role"]) eq_refl) as [Hcalls [Hthrown _]].
  split; [exact Hcalls | exact Hthrown].
Defined.

Lemma genericCreateOne_rejected_save_witness :
  run (model "User") (construct (VObj [("_id", VStr "u1")])) users
  = (Returns (VObj [("_id", VStr "u1")]), users)
  /\ run (model "User") (save (VObj [("_id", VStr "u1")])) users
     = (Throws (VErr (LibraryError "MongoServerError") "E11000 duplicate key error"),
        users)
  /\ fst (genericCreateOne (model "User") (VObj [("_id", VStr "u1")])
            (initial users))
     = Throws (new_BadRequestException
                 "Error creating document: E11000 duplicate key error").
Proof.
  split; [reflexivity | split; [reflexivity |]].
  apply (genericCreateOne_rejected_save (model "User") users
           (VObj [("_id", VStr "u1")]) (VObj [("_id", VStr "u1")]) users users
           (LibraryError "MongoServerError") "E11000 duplicate key error");
    reflexivity.
Defined.

Lemma non_Error_failure_rethrown_witness :
  last_reply (snd (invoke (rejecting "User" (VStr "boom")) (GenericDeleteOne "u1")
                     (initial tt)))
  = Some (Throws (VStr "boom"))
  /\ instanceof_Error (VStr "boom") = false
  /\ fst (invoke (rejecting "User" (VStr "boom")) (GenericDeleteOne "u1")
            (initial tt))
     = Throws (VStr "boom").
Proof.
  split; [reflexivity | split; [reflexivity |]].
  apply (non_Error_failure_rethrown (rejecting "User" (VStr "boom")) tt
           (GenericDeleteOne "u1") _
           (snd (invoke (rejecting "User" (VStr "boom")) (GenericDeleteOne "u1")
                   (initial tt)))
           (VStr "boom"));
    reflexivity.
Defined.

Lemma soft_delete_convention_witness :
  reads_updates_or_deletes GenericFindAll = true
  /\ (exists call,
         calls_sent (snd (invoke (model "User") GenericFindAll (initial users)))
         = [call]
         /\ excludes_deleted call = true)
  /\ calls_sent (snd (invoke (model "User") (GenericDeleteOne "u1")
                        (initial users)))
     = [findOneAndUpdate
          (VObj [("_id", VStr "u1"); ("isDeleted", VBool false)])
          (VObj [("isDeleted", VBool true)])
          (VObj [("new", VBool true)])].
Proof.
  split; [reflexivity | split].
  - destruct (proj1 (proj2 (soft_delete_convention (model "User") users
                              GenericFindAll)) eq_refl)
      as [Hsent | [_ [filter [populateOptions [e [[Hm | Hm] _]]]]]].
    + exact Hsent.
    + discriminate Hm.
    + discriminate Hm.
  - apply (proj2 (proj2 (soft_delete_convention (model "User") users
                           (GenericDeleteOne "u1"))) "u1").
    reflexivity.
Defined.

Lemma caller_cannot_select_deleted_witness :
  exists props,
    obj_get "isDeleted" props = Some (VBool false)
    /\ props = obj_set "isDeleted" (VBool false) [("isDeleted", VBool true)]
    /\ calls_sent (snd (genericFindOne (model "User")
                          (VObj [("isDeleted", VBool true)]) (initial users)))
       = [findOne (VObj props) []]
    /\ calls_sent (snd (genericFindAllWithPopulate (model "User")
                          (VObj [("isDeleted", VBool true)]) (VStr "role")
                          (initial users)))
       = [find (VObj props) [VArr [VStr "role"]]].
Proof.
  destruct (caller_cannot_select_deleted (model "User") users
              (VObj [("isDeleted", VBool true)]) (VStr "role"))
    as [props [Hget [Hobj [Hone [_ Hpop]]]]].
  exists props.
  split; [exact Hget |].
  split; [exact (Hobj [("isDeleted", VBool true)] eq_refl) |].
  split; [exact Hone |].
  exact (proj2 (Hpop (VArr [VStr "role"]) eq_refl)).
Defined.

(** Asking for deleted users by filter gets the live one. *)
Example filter_isDeleted_true_overridden :
  fst (genericFindOne (model "User") (VObj [("isDeleted", VBool true)])
         (initial users))
  = Returns (VObj [("_id", VStr "u1"); ("username", VStr "ada");
                   ("isDeleted", VBool false)]).
Proof. reflexivity. Qed.

End Runs.

(** ** More on the populate normalizer *)

Section NormalizerShape.

(** Normalizing a normalized value changes nothing. *)
Theorem normalizePopulate_idempotent (p v : value) :
  normalizePopulate p = Returns v ->
  normalizePopulate v = Returns v.
Proof.
  unfold normalizePopulate at 1.
  destruct (truthy p) eqn:Ht; simpl negb; cbv iota.
  - destruct (typeof_string p) eqn:Hs.
    + intros H. inversion H. reflexivity.
    + destruct (js_in "path" p) as [[|] |] eqn:Hin; intros H; inversion H; subst.
      * reflexivity.
      * unfold normalizePopulate. rewrite Ht, Hs, Hin. reflexivity.
  - intros H. inversion H. reflexivity.
Qed.

Lemma normalizePopulate_idempotent_witness :
  normalizePopulate (VStr "user") = Returns (VArr [VStr "user"])
  /\ normalizePopulate (VArr [VStr "user"]) = Returns (VArr [VStr "user"]).
Proof.
  split.
  - reflexivity.
  - apply (normalizePopulate_idempotent (VStr "user")). reflexivity.
Defined.


(** What the normalizer hands to [populate] is [undefined], an array, or
    an object without a ["path"] key: never a bare string. *)
Theorem normalizePopulate_result_shape (p v : value) :
  normalizePopulate p = Returns v ->
  v = VUndefined \/ (exists a, v = VArr a) \/ js_in "path" v = Some false.
Proof.
  unfold normalizePopulate.
  destruct (negb (truthy p)).
  - intros H. inversion H. left. reflexivity.
  - destruct (typeof_string p).
    + intros H. inversion H. right. left. eexists. reflexivity.
    + destruct (js_in "path" p) as [[|] |] eqn:Hin; intros H; inversion H; subst.
      * right. left. eexists. reflexivity.
      * right. right. exact Hin.
Qed.

Lemma normalizePopulate_result_shape_witness :
  normalizePopulate (VObj [("select", VStr "name")])
  = Returns (VObj [("select", VStr "name")])
  /\ (VObj [("select", VStr "name")] = VUndefined
      \/ (exists a, VObj [("select", VStr "name")] = VArr a)
      \/ js_in "path" (VObj [("select", VStr "name")]) = Some false).
Proof.
  split.
  - reflexivity.
  - apply (normalizePopulate_result_shape (VObj [("select", VStr "name")])).
    reflexivity.
Defined.

(** The result is truthy exactly when the input is: the wrapper's test
    [if (normalizedPopulate)] is a test on the caller's option. *)
Lemma normalizePopulate_truthy (p v : value) :
  normalizePopulate p = Returns v ->
  truthy v = truthy p.
Proof.
  unfold normalizePopulate.
  destruct (truthy p) eqn:Ht; simpl negb; cbv iota.
  - destruct (typeof_string p).
    + intros H. inversion H. reflexivity.
    + destruct (js_in "path" p) as [[|] |]; intros H; inversion H; subst.
      * reflexivity.
      * exact Ht.
  - intros H. inversion H. reflexivity.
Qed.

End NormalizerShape.

(** ** What a method returns and what it throws *)

Section Outcomes.

Context {S : Type}.
Variable dbModel : Model S.

(** A method that returns hands over what the mapper's latest call
    yielded, untouched, and has written nothing to the console. *)
Theorem returned_value_is_mapper_reply (s : S) (m : Method) (v : value)
    (w' : World S) :
  invoke dbModel m (initial s) = (Returns v, w') ->
  last_reply w' = Some (Returns v) /\ console w' = [].
Proof.
  intros Hrun. revert Hrun.
  destruct m; unfold_method; split_run; intros Hrun; inversion Hrun; subst;
    split; reflexivity.
Qed.

(** The seven methods that test the awaited result never return a falsy
    value. *)
Theorem checked_result_is_truthy (s : S) (m : Method) (v : value)
    (w' : World S) :
  invoke dbModel m (initial s) = (Returns v, w') ->
  checks_result m = true ->
  truthy v = true.
Proof.
  intros Hrun Hm. revert Hrun.
  destruct m; try discriminate Hm; unfold_method; split_run;
    intros Hrun; inversion Hrun; subst;
    match goal with
    | H : negb (truthy ?x) = false |- truthy ?x = true =>
        apply Bool.negb_false_iff in H; exact H
    end.
Qed.

(** Whatever a method throws is one of three things: one of the two HTTP
    exceptions; the plain Error of [genericFindOneByIdOrNotFound]; or a
    value that is not an Error and that the mapper's latest call failed
    with. *)
Theorem thrown_value_kinds (s : S) (m : Method) (e : value) (w' : World S) :
  invoke dbModel m (initial s) = (Throws e, w') ->
  http_exception e = true
  \/ (exists id populateFields msg,
        m = GenericFindOneByIdOrNotFound id populateFields
        /\ e = new_Error ("Error finding document: " ++ msg))
  \/ (instanceof_Error e = false /\ last_reply w' = Some (Throws e)).
Proof.
  intros Hrun. revert Hrun.
  destruct m; unfold_method; split_run; intros Hrun; inversion Hrun; subst;
    try (left; reflexivity);
    try (left; assumption);
    try (right; right; split; [assumption | reflexivity]);
    try (right; left; do 3 eexists; split; reflexivity).
  all: try (left; unfold http_exception;
            match goal with
            | H : instanceof_NotFoundException _ = true |- _ => rewrite H
            end; reflexivity).
  all: match goal with
       | H : normalizePopulate _ = Throws ?x, H' : instanceof_Error ?x = false |- _ =>
           apply normalizePopulate_throws_Error in H; congruence
       end.
Qed.

(** A read other than the lookup by id never throws an Error that is not
    a NotFoundException. *)
Theorem plain_read_throws_not_found (s : S) (m : Method) (e : value)
    (w' : World S) :
  invoke dbModel m (initial s) = (Throws e, w') ->
  plain_read m = true ->
  instanceof_Error e = true ->
  instanceof_NotFoundException e = true.
Proof.
  intros Hrun Hm He. revert Hrun.
  destruct m; try discriminate Hm; unfold_method; split_run;
    intros Hrun; inversion Hrun; subst; try reflexivity; congruence.
Qed.

(** When the mapper fails with an Error, [genericUpdateOne] and
    [genericDeleteOne] throw a BadRequestException that carries the
    Error's message. *)
Theorem update_delete_mapper_Error (s : S) (id : string) (updateDto : value)
    (cls : ErrorClass) (msg : string) :
  (last_reply (snd (genericUpdateOne dbModel id updateDto (initial s)))
   = Some (Throws (VErr cls msg)) ->
   fst (genericUpdateOne dbModel id updateDto (initial s))
   = Throws (new_BadRequestException ("Error updating document: " ++ msg)))
  /\ (last_reply (snd (genericDeleteOne dbModel id (initial s)))
      = Some (Throws (VErr cls msg)) ->
      fst (genericDeleteOne dbModel id (initial s))
      = Throws (new_BadRequestException ("Error deleting document: " ++ msg))).
Proof.
  split; unfold_method; split_run; intros Hlast;
    read_last_reply Hlast; try reflexivity; discriminate.
Qed.

(** When the mapper fails with an Error that is not a NotFoundException,
    [genericFindOneByIdOrNotFound] throws a plain Error, neither of the
    two HTTP exceptions. *)
Theorem lookup_by_id_mapper_Error (s : S) (id : string)
    (populateFields : option (list string))
    (r : Completion value) (w' : World S) (cls : ErrorClass) (msg : string) :
  genericFindOneByIdOrNotFound dbModel id populateFields (initial s) = (r, w') ->
  last_reply w' = Some (Throws (VErr cls msg)) ->
  cls <> NotFoundException ->
  r = Throws (new_Error ("Error finding document: " ++ msg))
  /\ http_exception (new_Error ("Error finding document: " ++ msg)) = false.
Proof.
  intros Hrun Hlast Hcls. split; [| reflexivity]. revert Hrun.
  unfold_method; split_run; intros Hrun; inversion Hrun; subst;
    read_last_reply Hlast; try reflexivity; try discriminate;
    destruct cls; try discriminate; contradiction.
Qed.

(** A failure of the mapper is written to the console, with the value
    the mapper failed with, before it is translated; only the two
    populate methods stay silent, and only on a value that is not an
    Error. *)
Theorem mapper_failure_is_logged (s : S) (m : Method) (r : Completion value)
    (w' : World S) (e : value) :
  invoke dbModel m (initial s) = (r, w') ->
  last_reply w' = Some (Throws e) ->
  (exists level label, In (level, label, e) (console w'))
  \/ (instanceof_Error e = false
      /\ exists filter populateOptions,
           m = GenericFindOneWithPopulate filter populateOptions
           \/ m = GenericFindAllWithPopulate filter populateOptions).
Proof.
  intros Hrun Hlast. revert Hrun.
  destruct m; unfold_method; split_run; intros Hrun; inversion Hrun; subst;
    read_last_reply Hlast;
    try (left; do 2 eexists; simpl; left; reflexivity);
    right; (split; [assumption |]); do 2 eexists; eauto.
Qed.

End Outcomes.

(** ** The queries the methods build, and how the methods relate *)

Section Queries.

Context {S : Type}.
Variable dbModel : Model S.

(** The by-filter methods keep the conditions of a filter object: each
    sends one query (the populate methods whenever the normalizer
    returns), and under every key but [isDeleted] the filter sent holds
    what the caller's filter holds. *)
Theorem caller_conditions_kept (s : S) (fprops : list (string * value))
    (populateOptions : value) :
  exists props,
    (forall key, key <> "isDeleted" -> obj_get key props = obj_get key fprops)
    /\ calls_sent (snd (genericFindOne dbModel (VObj fprops) (initial s)))
       = [findOne (VObj props) []]
    /\ calls_sent (snd (genericFindOneOrNotFound dbModel (VObj fprops) (initial s)))
       = [findOne (VObj props) []]
    /\ (forall normalized,
           normalizePopulate populateOptions = Returns normalized ->
           exists populated,
             calls_sent (snd (genericFindOneWithPopulate dbModel (VObj fprops)
                                populateOptions (initial s)))
             = [findOne (VObj props) populated]
             /\ calls_sent (snd (genericFindAllWithPopulate dbModel (VObj fprops)
                                   populateOptions (initial s)))
                = [find (VObj props) populated]).
Proof.
  exists (obj_set "isDeleted" (VBool false) fprops).
  split; [intros key Hkey; apply obj_get_set_other; exact Hkey |].
  split; [unfold_method; split_run; reflexivity |].
  split; [unfold_method; split_run; reflexivity |].
  intros normalized Hn.
  exists (if truthy normalized then [normalized] else []).
  split; unfold_method; rewrite Hn; split_run; reflexivity.
Qed.

(** The populate methods attach what the normalizer returns, in one
    [populate] call, exactly when the caller's option is truthy. *)
Theorem populate_attached (s : S) (filter populateOptions normalized : value) :
  normalizePopulate populateOptions = Returns normalized ->
  calls_sent (snd (genericFindOneWithPopulate dbModel filter populateOptions
                     (initial s)))
  = [findOne (VObj (obj_set "isDeleted" (VBool false) (spread filter)))
       (if truthy populateOptions then [normalized] else [])]
  /\ calls_sent (snd (genericFindAllWithPopulate dbModel filter populateOptions
                        (initial s)))
     = [find (VObj (obj_set "isDeleted" (VBool false) (spread filter)))
          (if truthy populateOptions then [normalized] else [])].
Proof.
  intros Hn. rewrite <- (normalizePopulate_truthy _ _ Hn).
  split; unfold_method; rewrite Hn; split_run; reflexivity.
Qed.

(** A populate option the normalizer rejects ends the populate methods
    with a NotFoundException, and no query reaches the mapper. *)
Theorem rejected_populate_option (s : S) (filter populateOptions e : value) :
  normalizePopulate populateOptions = Throws e ->
  genericFindOneWithPopulate dbModel filter populateOptions (initial s)
  = (Throws (new_NotFoundException
               ("Error finding and populating document: " ++ message e)),
     {| db := s;
        console := [(LogError, "Error finding and populating document:", e)];
        sent := [] |})
  /\ genericFindAllWithPopulate dbModel filter populateOptions (initial s)
     = (Throws (new_NotFoundException
                  ("Error finding and populating documents: " ++ message e)),
        {| db := s;
           console := [(LogError, "Error finding and populating documents:", e)];
           sent := [] |}).
Proof.
  intros Hn. pose proof (normalizePopulate_throws_Error _ _ Hn) as He.
  split; unfold_method; rewrite Hn, He; reflexivity.
Qed.

(** [genericCreateOne] passes the DTO to the constructor as it is, and
    saves the document the constructor made; when the constructor throws
    nothing is saved. *)
Theorem genericCreateOne_calls (s : S) (createDto : value) :
  calls_sent (snd (genericCreateOne dbModel createDto (initial s)))
  = match fst (run dbModel (construct createDto) s) with
    | Returns doc => [construct createDto; save doc]
    | Throws _ => [construct createDto]
    end.
Proof.
  unfold_method; split_run; reflexivity.
Qed.

(** Without a populate option, [genericFindOneWithPopulate] sends the
    query of [genericFindOne], leaves the mapper in the same state and
    returns what [genericFindOne] returns. *)
Theorem findOne_without_populate (s : S) (filter : value) :
  calls_sent (snd (genericFindOneWithPopulate dbModel filter VUndefined (initial s)))
  = calls_sent (snd (genericFindOne dbModel filter (initial s)))
  /\ db (snd (genericFindOneWithPopulate dbModel filter VUndefined (initial s)))
     = db (snd (genericFindOne dbModel filter (initial s)))
  /\ forall v,
       fst (genericFindOneWithPopulate dbModel filter VUndefined (initial s))
       = Returns v
       <-> fst (genericFindOne dbModel filter (initial s)) = Returns v.
Proof.
  unfold_method. cbn [normalizePopulate truthy negb].
  split_run; repeat split; intros; try assumption; try discriminate.
Qed.

(** [genericFindOneOrNotFound] is [genericFindOne] with a test on the
    result: it returns the same truthy result, throws the same value when
    the query fails, and throws a NotFoundException on a falsy result. *)
Theorem findOneOrNotFound_refines_findOne (s : S) (filter : value) :
  fst (genericFindOneOrNotFound dbModel filter (initial s))
  = match fst (genericFindOne dbModel filter (initial s)) with
    | Returns v =>
        if truthy v then Returns v
        else Throws (new_NotFoundException
                       ("Error finding document by filter: "
                          ++ modelName dbModel
                          ++ " Document not found with provided filter"))
    | Throws e => Throws e
    end.
Proof.
  unfold_method.
  destruct (run dbModel _ s) as [[v | e] s']; cbn [db console sent fst].
  - destruct (truthy v); reflexivity.
  - destruct (instanceof_Error e); reflexivity.
Qed.

(** Called without arguments, [genericFindAllWithPopulate] sends the
    query of [genericFindAll]; a truthy result comes back from both. *)
Theorem findAll_without_arguments (s : S) :
  calls_sent (snd (genericFindAllWithPopulate dbModel VUndefined VUndefined
                     (initial s)))
  = calls_sent (snd (genericFindAll dbModel (initial s)))
  /\ calls_sent (snd (genericFindAll dbModel (initial s)))
     = [find (VObj [("isDeleted", VBool false)]) []]
  /\ forall v,
       truthy v = true ->
       (fst (genericFindAllWithPopulate dbModel VUndefined VUndefined (initial s))
        = Returns v
        <-> fst (genericFindAll dbModel (initial s)) = Returns v).
Proof.
  unfold_method. cbn [normalizePopulate truthy negb spread obj_set].
  destruct (run dbModel _ s) as [[v | e] s']; cbn [db console sent].
  - destruct (truthy v) eqn:Ht; cbn; (split; [reflexivity |]);
      (split; [reflexivity |]); intros v0 Hv0; split; intros H;
      inversion H; subst; try reflexivity; congruence.
  - destruct (instanceof_Error e); cbn; (split; [reflexivity |]);
      (split; [reflexivity |]); intros v0 Hv0; split; intros H; discriminate H.
Qed.

End Queries.

(** ** The service of the README *)

Module ServiceFacts.
Import UsersService.

Section Service.

Context {S : Type}.
Variable userModel : Model S.
Variable bcrypt_hash : value -> Z -> Completion value.
Variable new_Date : value.
Variable privilegeId : string.

(** [updateSingleUser] and [deleteSingleUser] look the user up first:
    when that lookup, the unpopulated query for the non-deleted user with
    the id, yields [null], they throw the NotFoundException of the
    lookup. *)
Theorem service_missing_user (s : S) (id : string) (userDTO : value) :
  fst (run userModel
         (findOne (VObj [("_id", VStr id); ("isDeleted", VBool false)]) []) s)
  = Returns VNull ->
  fst (updateSingleUser userModel id userDTO (initial s))
  = Throws (new_NotFoundException
              (modelName userModel ++ " Document with id " ++ id ++ " not found"))
  /\ fst (deleteSingleUser userModel id (initial s))
     = Throws (new_NotFoundException
                 (modelName userModel ++ " Document with id " ++ id ++ " not found")).
Proof.
  intros Hnone.
  unfold updateSingleUser, deleteSingleUser. unfold_method.
  destruct (run userModel _ s) as [reply s']. simpl in Hnone. subst reply.
  split; reflexivity.
Qed.

(** The two methods send the update only after a lookup that found a
    document; otherwise the lookup is the only call. *)
Theorem service_updates_after_lookup (s : S) (id : string) (userDTO : value) :
  calls_sent (snd (updateSingleUser userModel id userDTO (initial s)))
  = findOne (VObj [("_id", VStr id); ("isDeleted", VBool false)]) []
    :: match fst (run userModel
                    (findOne (VObj [("_id", VStr id); ("isDeleted", VBool false)])
                       []) s) with
       | Returns found =>
           if truthy found
           then [findOneAndUpdate
                   (VObj [("_id", VStr id); ("isDeleted", VBool false)])
                   userDTO (VObj [("new", VBool true)])]
           else []
       | Throws _ => []
       end
  /\ calls_sent (snd (deleteSingleUser userModel id (initial s)))
     = findOne (VObj [("_id", VStr id); ("isDeleted", VBool false)]) []
       :: match fst (run userModel
                       (findOne (VObj [("_id", VStr id); ("isDeleted", VBool false)])
                          []) s) with
          | Returns found =>
              if truthy found
              then [findOneAndUpdate
                      (VObj [("_id", VStr id); ("isDeleted", VBool false)])
                      (VObj [("isDeleted", VBool true)])
                      (VObj [("new", VBool true)])]
              else []
          | Throws _ => []
          end.
Proof.
  unfold updateSingleUser, deleteSingleUser. unfold_method.
  cbn [has_fields].
  destruct (run userModel (findOne _ []) s) as [[found | e] s1];
    cbn [db console sent fst].
  - destruct (truthy found); cbn [negb db console sent]; split; split_run;
      reflexivity.
  - split; split_run; reflexivity.
Qed.

(** [findOneUser] asks for the non-deleted user with the id, populated
    with the privilege path wrapped in an array, and returns whatever the
    mapper yields, [null] included. *)
Theorem findOneUser_query (s : S) (id : string) :
  calls_sent (snd (findOneUser userModel privilegeId id (initial s)))
  = [findOne (VObj [("_id", VStr id); ("isDeleted", VBool false)])
       [VArr [VObj [("path", VStr privilegeId)]]]]
  /\ forall v s',
       run userModel
         (findOne (VObj [("_id", VStr id); ("isDeleted", VBool false)])
            [VArr [VObj [("path", VStr privilegeId)]]]) s
       = (Returns v, s') ->
       fst (findOneUser userModel privilegeId id (initial s)) = Returns v.
Proof.
  unfold findOneUser. unfold_method.
  cbn [normalizePopulate truthy negb typeof_string js_in obj_has obj_get
         String.eqb Ascii.eqb Bool.eqb spread obj_set populate app].
  split.
  - split_run; reflexivity.
  - intros v s' Hrun. rewrite Hrun. reflexivity.
Qed.

(** The user [create] hands to [genericCreateOne] is never flagged as
    deleted, carries the hash in place of the password, is active unless
    the DTO says otherwise, and keeps the DTO's other properties. *)
Theorem create_builds_live_user (s : S) (createUserDto : list (string * value))
    (hashedPassword : value) :
  bcrypt_hash (prop "password" createUserDto) 10 = Returns hashedPassword ->
  exists createdUser,
    hd_error
      (calls_sent
         (snd (create userModel bcrypt_hash new_Date createUserDto (initial s))))
    = Some (construct (VObj createdUser))
    /\ obj_get "isDeleted" createdUser = Some (VBool false)
    /\ obj_get "password" createdUser = Some hashedPassword
    /\ obj_get "isActive" createdUser
       = Some (nullish (prop "isActive" createUserDto) (VBool true))
    /\ obj_get "dateOfJoined" createdUser
       = Some (nullish (prop "dateOfJoined" createUserDto) new_Date)
    /\ forall key,
         ~ In key ["password"; "dateOfJoined"; "isDeleted"; "isActive"] ->
         obj_get key createdUser = obj_get key createUserDto.
Proof.
  intros Hhash. unfold create. unfold_method. rewrite Hhash.
  eexists. split.
  - split_run; reflexivity.
  - repeat split.
    + rewrite obj_get_set_other by discriminate. apply obj_get_set_same.
    + do 3 (rewrite obj_get_set_other by discriminate). apply obj_get_set_same.
    + apply obj_get_set_same.
    + do 2 (rewrite obj_get_set_other by discriminate). apply obj_get_set_same.
    + intros key Hkey. simpl in Hkey.
      repeat rewrite obj_get_set_other; try reflexivity;
        intros ->; apply Hkey; auto.
Qed.

(** A failed hash leaves [create] through no handler: the value is
    thrown as it is and nothing reaches the mapper. *)
Theorem create_hash_failure (s : S) (createUserDto : list (string * value))
    (e : value) :
  bcrypt_hash (prop "password" createUserDto) 10 = Throws e ->
  create userModel bcrypt_hash new_Date createUserDto (initial s)
  = (Throws e, initial s).
Proof.
  intros Hhash. unfold create, bind, lift. rewrite Hhash. reflexivity.
Qed.

End Service.
End ServiceFacts.

(** ** The further properties on concrete runs *)

Module MoreRuns.
Import MemoryMapper UsersService ServiceFacts.


Lemma returned_value_is_mapper_reply_witness :
  (invoke (model "User") (GenericFindOne (VObj [("username", VStr "ada")])) (initial
      users)) = (Returns (VObj [("_id", VStr "u1"); ("username", VStr "ada");
      ("isDeleted", VBool false)]), snd (invoke (model "User") (GenericFindOne (VObj
      [("username", VStr "ada")])) (initial users)))
  /\ last_reply (snd (invoke (model "User") (GenericFindOne (VObj [("username", VStr
      "ada")])) (initial users))) = Some (Returns (VObj [("_id", VStr "u1");
      ("username", VStr "ada"); ("isDeleted", VBool false)]))
  /\ console (snd (invoke (model "User") (GenericFindOne (VObj [("username", VStr
      "ada")])) (initial users))) = [].
Proof.
  split; [reflexivity |].
  apply (returned_value_is_mapper_reply (model "User") users (GenericFindOne (VObj
      [("username", VStr "ada")])) (VObj [("_id", VStr "u1"); ("username", VStr "ada");
      ("isDeleted", VBool false)]) (snd (invoke (model "User") (GenericFindOne (VObj
      [("username", VStr "ada")])) (initial users)))).
  reflexivity.
Defined.

Lemma checked_result_is_truthy_witness :
  invoke (model "User") (GenericUpdateOne "u1" (VObj [("username", VStr "eve")]))
    (initial users)
  = (Returns (VObj [("_id", VStr "u1"); ("username", VStr "eve");
                    ("isDeleted", VBool false)]),
     snd (invoke (model "User") (GenericUpdateOne "u1" (VObj [("username", VStr "eve")]))
            (initial users)))
  /\ checks_result (GenericUpdateOne "u1" (VObj [("username", VStr "eve")])) = true
  /\ truthy (VObj [("_id", VStr "u1"); ("username", VStr "eve");
                   ("isDeleted", VBool false)]) = true.
Proof.
  split; [reflexivity | split; [reflexivity |]].
  apply (checked_result_is_truthy (model "User") users
           (GenericUpdateOne "u1" (VObj [("username", VStr "eve")])) _
           (snd (invoke (model "User")
                   (GenericUpdateOne "u1" (VObj [("username", VStr "eve")]))
                   (initial users))));
    reflexivity.
Defined.

Lemma thrown_value_kinds_witness :
  invoke (rejecting "User" (VErr (LibraryError "CastError") "Cast to ObjectId failed"))
      (GenericFindOneByIdOrNotFound "u1" None) (initial tt)
  = (Throws (new_Error "Error finding document: Cast to ObjectId failed"),
     snd (invoke (rejecting "User" (VErr (LibraryError "CastError")
         "Cast to ObjectId failed")) (GenericFindOneByIdOrNotFound "u1" None) (initial
         tt)))
  /\ (http_exception (new_Error "Error finding document: Cast to ObjectId failed")
      = true
      \/ (exists id populateFields msg,
            GenericFindOneByIdOrNotFound "u1" None
            = GenericFindOneByIdOrNotFound id populateFields
            /\ new_Error "Error finding document: Cast to ObjectId failed"
               = new_Error ("Error finding document: " ++ msg))
      \/ (instanceof_Error
            (new_Error "Error finding document: Cast to ObjectId failed") = false
          /\ last_reply
               (snd (invoke (rejecting "User" (VErr (LibraryError "CastError")
                   "Cast to ObjectId failed")) (GenericFindOneByIdOrNotFound "u1" None)
                   (initial tt)))
             = Some (Throws
                       (new_Error "Error finding document: Cast to ObjectId failed")))).
Proof.
  split; [reflexivity |].
  apply (thrown_value_kinds (rejecting "User" (VErr (LibraryError "CastError")
      "Cast to ObjectId failed")) tt (GenericFindOneByIdOrNotFound "u1" None)).
  reflexivity.
Defined.

Lemma plain_read_throws_not_found_witness :
  invoke (rejecting "User" (VErr (LibraryError "CastError") "Cast to ObjectId failed"))
      GenericFindAll (initial tt)
  = (Throws (new_NotFoundException
               "Error finding all documents: Cast to ObjectId failed"),
     snd (invoke (rejecting "User" (VErr (LibraryError "CastError")
         "Cast to ObjectId failed")) GenericFindAll (initial tt)))
  /\ plain_read GenericFindAll = true
  /\ instanceof_NotFoundException
       (new_NotFoundException "Error finding all documents: Cast to ObjectId failed")
     = true.
Proof.
  split; [reflexivity | split; [reflexivity |]].
  apply (plain_read_throws_not_found (rejecting "User" (VErr (LibraryError "CastError")
      "Cast to ObjectId failed")) tt GenericFindAll _
           (snd (invoke (rejecting "User" (VErr (LibraryError "CastError")
               "Cast to ObjectId failed")) GenericFindAll (initial tt))));
    reflexivity.
Defined.

Lemma update_delete_mapper_Error_witness :
  last_reply (snd (genericUpdateOne (rejecting "User" (VErr (LibraryError "CastError")
      "Cast to ObjectId failed")) "u1" VNull (initial tt)))
  = Some (Throws (VErr (LibraryError "CastError") "Cast to ObjectId failed"))
  /\ fst (genericUpdateOne (rejecting "User" (VErr (LibraryError "CastError")
      "Cast to ObjectId failed")) "u1" VNull (initial tt))
     = Throws (new_BadRequestException
                 "Error updating document: Cast to ObjectId failed")
  /\ fst (genericDeleteOne (rejecting "User" (VErr (LibraryError "CastError")
      "Cast to ObjectId failed")) "u1" (initial tt))
     = Throws (new_BadRequestException
                 "Error deleting document: Cast to ObjectId failed").
Proof.
  split; [reflexivity | split].
  - apply (proj1 (update_delete_mapper_Error (rejecting "User" (VErr (LibraryError
      "CastError") "Cast to ObjectId failed")) tt "u1" VNull
                    (LibraryError "CastError") "Cast to ObjectId failed")).
    reflexivity.
  - apply (proj2 (update_delete_mapper_Error (rejecting "User" (VErr (LibraryError
      "CastError") "Cast to ObjectId failed")) tt "u1" VNull
                    (LibraryError "CastError") "Cast to ObjectId failed")).
    reflexivity.
Defined.

Lemma lookup_by_id_mapper_Error_witness :
  last_reply (snd (genericFindOneByIdOrNotFound (rejecting "User" (VErr (LibraryError
      "CastError") "Cast to ObjectId failed")) "u1" (Some ["role"]) (initial tt)))
  = Some (Throws (VErr (LibraryError "CastError") "Cast to ObjectId failed"))
  /\ LibraryError "CastError" <> NotFoundException
  /\ fst (genericFindOneByIdOrNotFound (rejecting "User" (VErr (LibraryError
      "CastError") "Cast to ObjectId failed")) "u1" (Some ["role"]) (initial tt))
     = Throws (new_Error "Error finding document: Cast to ObjectId failed").
Proof.
  split; [reflexivity | split; [discriminate |]].
  apply (lookup_by_id_mapper_Error (rejecting "User" (VErr (LibraryError "CastError")
      "Cast to ObjectId failed")) tt "u1" (Some ["role"]) _
           (snd (genericFindOneByIdOrNotFound (rejecting "User" (VErr (LibraryError
               "CastError") "Cast to ObjectId failed")) "u1" (Some ["role"]) (initial
               tt)))
           (LibraryError "CastError") "Cast to ObjectId failed");
    [reflexivity | reflexivity | discriminate].
Defined.

Lemma mapper_failure_is_logged_witness :
  last_reply (snd (invoke (rejecting "User" (VErr (LibraryError "CastError")
      "Cast to ObjectId failed")) (GenericDeleteOne "u1") (initial tt)))
  = Some (Throws (VErr (LibraryError "CastError") "Cast to ObjectId failed"))
  /\ ((exists level label,
          In (level, label, (VErr (LibraryError "CastError") "Cast to ObjectId failed"))
            (console (snd (invoke (rejecting "User" (VErr (LibraryError "CastError")
                "Cast to ObjectId failed")) (GenericDeleteOne "u1") (initial tt)))))
      \/ (instanceof_Error (VErr (LibraryError "CastError") "Cast to ObjectId failed") =
          false
          /\ exists filter populateOptions,
               GenericDeleteOne "u1" = GenericFindOneWithPopulate filter populateOptions
               \/ GenericDeleteOne "u1"
                  = GenericFindAllWithPopulate filter populateOptions)).
Proof.
  split; [reflexivity |].
  apply (mapper_failure_is_logged (rejecting "User" (VErr (LibraryError "CastError")
      "Cast to ObjectId failed")) tt (GenericDeleteOne "u1")
           (fst (invoke (rejecting "User" (VErr (LibraryError "CastError")
               "Cast to ObjectId failed")) (GenericDeleteOne "u1") (initial tt)))
           (snd (invoke (rejecting "User" (VErr (LibraryError "CastError")
               "Cast to ObjectId failed")) (GenericDeleteOne "u1") (initial tt))) (VErr
               (LibraryError "CastError") "Cast to ObjectId failed"));
    reflexivity.
Defined.

Lemma caller_conditions_kept_witness :
  exists props,
    obj_get "username" props = Some (VStr "ada")
    /\ calls_sent
         (snd (genericFindOneOrNotFound (model "User")
                 (VObj [("username", VStr "ada"); ("isDeleted", VBool true)])
                 (initial users)))
       = [findOne (VObj props) []].
Proof.
  destruct (caller_conditions_kept (model "User") users
              [("username", VStr "ada"); ("isDeleted", VBool true)] VUndefined)
    as [props [Hkept [_ [Hsent _]]]].
  exists props. split.
  - rewrite (Hkept "username"); [reflexivity | discriminate].
  - exact Hsent.
Defined.

Lemma populate_attached_witness :
  normalizePopulate (VStr "role") = Returns (VArr [VStr "role"])
  /\ calls_sent (snd (genericFindOneWithPopulate (model "User") (VObj [("_id", VStr
      "u1")])
                        (VStr "role") (initial users)))
     = [findOne (VObj [("_id", VStr "u1"); ("isDeleted", VBool false)])
          [VArr [VStr "role"]]].
Proof.
  split; [reflexivity |].
  apply (proj1 (populate_attached (model "User") users (VObj [("_id", VStr "u1")])
                  (VStr "role") (VArr [VStr "role"]) eq_refl)).
Defined.

Lemma rejected_populate_option_witness :
  normalizePopulate (VBool true)
  = Throws (VErr TypeError "Cannot use 'in' operator to search for 'path' in true")
  /\ fst (genericFindOneWithPopulate (model "User") (VObj [("_id", VStr "u1")]) (VBool
      true)
            (initial users))
     = Throws (new_NotFoundException
                 "Error finding and populating document: Cannot use 'in' operator to search for 'path' in true").
Proof.
  split; [reflexivity |].
  pose proof (proj1 (rejected_populate_option (model "User") users (VObj [("_id", VStr
      "u1")])
                       (VBool true) _ eq_refl)) as H.
  rewrite H. reflexivity.
Defined.

Lemma findOne_without_populate_witness :
  fst (genericFindOne (model "User") (VObj [("username", VStr "ada")]) (initial users))
  = Returns (VObj [("_id", VStr "u1"); ("username", VStr "ada"); ("isDeleted", VBool
      false)])
  /\ fst (genericFindOneWithPopulate (model "User") (VObj [("username", VStr "ada")])
            VUndefined (initial users))
     = Returns (VObj [("_id", VStr "u1"); ("username", VStr "ada"); ("isDeleted", VBool
         false)]).
Proof.
  split; [reflexivity |].
  apply (proj2 (proj2 (proj2 (findOne_without_populate (model "User") users
                                (VObj [("username", VStr "ada")]))) (VObj [("_id", VStr
                                    "u1"); ("username", VStr "ada"); ("isDeleted", VBool
                                    false)]))).
  reflexivity.
Defined.

Lemma findAll_without_arguments_witness :
  truthy (VArr [(VObj [("_id", VStr "u1"); ("username", VStr "ada"); ("isDeleted", VBool
      false)])]) = true
  /\ fst (genericFindAll (model "User") (initial users)) = Returns (VArr [(VObj [("_id",
      VStr "u1"); ("username", VStr "ada"); ("isDeleted", VBool false)])])
  /\ fst (genericFindAllWithPopulate (model "User") VUndefined VUndefined (initial users))
     = Returns (VArr [(VObj [("_id", VStr "u1"); ("username", VStr "ada"); ("isDeleted",
         VBool false)])]).
Proof.
  split; [reflexivity | split; [reflexivity |]].
  apply (proj2 (proj2 (proj2 (findAll_without_arguments (model "User") users))
                  (VArr [(VObj [("_id", VStr "u1"); ("username", VStr "ada");
                      ("isDeleted", VBool false)])]) eq_refl)).
  reflexivity.
Defined.

Lemma service_missing_user_witness :
  fst (run (model "User")
         (findOne (VObj [("_id", VStr "u2"); ("isDeleted", VBool false)]) [])
         users)
  = Returns VNull
  /\ fst (updateSingleUser (model "User") "u2" (VObj [("username", VStr "eve")])
            (initial users))
     = Throws (new_NotFoundException "User Document with id u2 not found")
  /\ fst (deleteSingleUser (model "User") "u2" (initial users))
     = Throws (new_NotFoundException "User Document with id u2 not found").
Proof.
  split.
  - reflexivity.
  - apply (service_missing_user (model "User") users "u2"
             (VObj [("username", VStr "eve")])).
    reflexivity.
Defined.

Lemma findOneUser_query_witness :
  run (model "User")
    (findOne (VObj [("_id", VStr "u2"); ("isDeleted", VBool false)])
       [VArr [VObj [("path", VStr "privilegeId")]]]) users
  = (Returns VNull, users)
  /\ fst (findOneUser (model "User") "privilegeId" "u2" (initial users)) = Returns VNull.
Proof.
  split; [reflexivity |].
  apply (proj2 (findOneUser_query (model "User") "privilegeId" users "u2") VNull users).
  reflexivity.
Defined.

Lemma create_builds_live_user_witness :
  (fun (_ : value) (_ : Z) => Returns (VStr "$2b$10$hash"))
    (prop "password" [("username", VStr "john"); ("password", VStr "plain");
                      ("isDeleted", VBool true); ("isActive", VBool false)])
    10%Z
  = Returns (VStr "$2b$10$hash")
  /\ exists createdUser,
       hd_error
         (calls_sent
            (snd (create (model "User")
                    (fun (_ : value) (_ : Z) => Returns (VStr "$2b$10$hash"))
                    (VStr "2024-01-01")
                    [("username", VStr "john"); ("password", VStr "plain");
                     ("isDeleted", VBool true); ("isActive", VBool false)]
                    (initial users))))
       = Some (construct (VObj createdUser))
       /\ obj_get "isDeleted" createdUser = Some (VBool false)
       /\ obj_get "password" createdUser = Some (VStr "$2b$10$hash")
       /\ obj_get "isActive" createdUser = Some (VBool false).
Proof.
  split; [reflexivity |].
  destruct (create_builds_live_user (model "User")
              (fun (_ : value) (_ : Z) => Returns (VStr "$2b$10$hash"))
              (VStr "2024-01-01") users
              [("username", VStr "john"); ("password", VStr "plain");
               ("isDeleted", VBool true); ("isActive", VBool false)]
              (VStr "$2b$10$hash") eq_refl)
    as [createdUser [Hhd [Hdel [Hpw [Hact _]]]]].
  exists createdUser. repeat split; assumption.
Defined.

Lemma create_hash_failure_witness :
  (fun (_ : value) (_ : Z) => @Throws value (VStr "salt error"))
    (prop "password" [("username", VStr "john")]) 10%Z
  = Throws (VStr "salt error")
  /\ create (model "User") (fun (_ : value) (_ : Z) => Throws (VStr "salt error"))
       (VStr "2024-01-01") [("username", VStr "john")] (initial users)
     = (Throws (VStr "salt error"), initial users).
Proof.
  split; [reflexivity |].
  apply (create_hash_failure (model "User")
           (fun (_ : value) (_ : Z) => Throws (VStr "salt error"))
           (VStr "2024-01-01") users [("username", VStr "john")]
           (VStr "salt error")).
  reflexivity.
Defined.

End MoreRuns.
